(** * verl/utils/tracking.py: the tracking facade and the MLflow parameter
      normalizer

    A shallow embedding of [Tracking], [_MlflowLoggingAdapter],
    [_compute_mlflow_params_from_objects],
    [_transform_params_to_json_serializable] and [_flatten_dict], with the
    properties the specification states about them. *)

From Stdlib Require Import List String Ascii ZArith Arith Lia Bool
  Permutation DecimalString DecimalNat SpecFloat.
From Equations Require Import Equations.
Import ListNotations.
Open Scope string_scope.
Open Scope list_scope.

Set Implicit Arguments.
Set Warnings "-register-all".

(** * Part I: the embedding *)

(** ** Python values *)

(** Scalars: [None], [bool], [int], [float] and [str]. *)
Inductive scalar : Type :=
| SNone
| SBool (b : bool)
| SInt (z : Z)
| SFloat (f : spec_float)
| SStr (s : string).

(** The configuration objects the transform distinguishes.  A [VPath] carries
    what [str] returns on the path, a [VEnum] the member's name and its
    [.value] (a scalar, as in the usual enumeration declarations), a
    [VRecord] the fields of a dataclass instance in declaration order.
    A Python [dict] is the sequence of its items in insertion order.
    Tuples, objects of other types and enumeration members with another
    kind of value are left to the type [Objects.obj] of Part V. *)
Inductive value : Type :=
| VScalar (s : scalar)
| VPath (str_form : string)
| VEnum (member : string) (underlying : scalar)
| VList (l : list value)
| VDict (d : list (string * value))
| VRecord (fields : list (string * value)).

Definition dict (A : Type) : Type := list (string * A).

Section ValueInd.
Variable P : value -> Prop.
Hypothesis Hscalar : forall s, P (VScalar s).
Hypothesis Hpath : forall s, P (VPath s).
Hypothesis Henum : forall m u, P (VEnum m u).
Hypothesis Hlist : forall l, Forall P l -> P (VList l).
Hypothesis Hdict : forall d, Forall (fun kv => P (snd kv)) d -> P (VDict d).
Hypothesis Hrecord :
  forall fs, Forall (fun kv => P (snd kv)) fs -> P (VRecord fs).

Fixpoint value_nested_ind (x : value) : P x :=
  match x with
  | VScalar s => Hscalar s
  | VPath s => Hpath s
  | VEnum m u => Henum m u
  | VList l =>
      Hlist ((fix go (l : list value) : Forall P l :=
                match l with
                | [] => Forall_nil _
                | v :: r => Forall_cons _ (value_nested_ind v) (go r)
                end) l)
  | VDict d =>
      Hdict ((fix go (d : list (string * value))
                : Forall (fun kv => P (snd kv)) d :=
                match d with
                | [] => Forall_nil _
                | kv :: r => Forall_cons _ (value_nested_ind (snd kv)) (go r)
                end) d)
  | VRecord fs =>
      Hrecord ((fix go (d : list (string * value))
                  : Forall (fun kv => P (snd kv)) d :=
                  match d with
                  | [] => Forall_nil _
                  | kv :: r => Forall_cons _ (value_nested_ind (snd kv)) (go r)
                  end) fs)
  end.
End ValueInd.

(** ** Python dictionaries as insertion-ordered item lists *)

Module PyDict.
Section Ops.
Variable A : Type.

(** [d.get(k)] *)
Fixpoint get (d : dict A) (k : string) : option A :=
  match d with
  | [] => None
  | (k', v) :: r => if String.eqb k' k then Some v else get r k
  end.

(** [d[k] = v]: an existing key keeps its position, a new one is
    appended. *)
Fixpoint set (d : dict A) (k : string) (v : A) : dict A :=
  match d with
  | [] => [(k, v)]
  | (k', v') :: r =>
      if String.eqb k' k then (k', v) :: r else (k', v') :: set r k v
  end.

(** [d.update(items)] *)
Definition update (d : dict A) (items : list (string * A)) : dict A :=
  fold_left (fun acc kv => set acc (fst kv) (snd kv)) items d.

(** [dict(items)] and the comprehension [{k: v for ...}] *)
Definition of_items (items : list (string * A)) : dict A :=
  update [] items.

(** [a | b] and [{**a, **b}] *)
Definition union (a b : dict A) : dict A := update a b.

Definition keys (d : dict A) : list string := map fst d.
Definition values (d : dict A) : list A := map snd d.
End Ops.
End PyDict.

(** [f'{i}'] for a non-negative index. *)
Definition str_of_nat (i : nat) : string :=
  NilEmpty.string_of_uint (Nat.to_uint i).

(** [enumerate(x)] *)
Definition enumerate (A : Type) (x : list A) : list (nat * A) :=
  combine (seq 0 (List.length x)) x.

(** ** dataclasses.asdict *)

(** [dataclasses._asdict_inner]: dataclass instances become dictionaries of
    their converted fields, lists and dictionaries are rebuilt from their
    converted elements, anything else is copied.  (Tuples, which it rebuilds
    too, are not among these objects: see [Objects._asdict_inner].) *)
Fixpoint _asdict_inner (obj : value) : value :=
  match obj with
  | VRecord fs => VDict (map (fun kv => (fst kv, _asdict_inner (snd kv))) fs)
  | VList l => VList (map _asdict_inner l)
  | VDict d => VDict (map (fun kv => (fst kv, _asdict_inner (snd kv))) d)
  | _ => obj
  end.

Definition asdict (obj : value) : value := _asdict_inner obj.

(** The measure along which the transform recurses: a record weighs more
    than the dictionary [asdict] makes of it. *)
Fixpoint weight (x : value) : nat :=
  match x with
  | VList l => S (fold_right (fun v n => weight v + n) 0 l)
  | VDict d => S (fold_right (fun kv n => weight (snd kv) + n) 0 d)
  | VRecord fs => 2 + fold_right (fun kv n => weight (snd kv) + n) 0 fs
  | _ => 1
  end.

Lemma weight_in_list (l : list value) (v : value) :
  In v l -> weight v <= fold_right (fun v n => weight v + n) 0 l.
Proof.
  induction l as [|a l IH]; simpl; [tauto|].
  intros [->|H]; [lia|]. specialize (IH H). lia.
Qed.

Lemma weight_in_items (d : list (string * value)) (kv : string * value) :
  In kv d -> weight (snd kv) <= fold_right (fun kv n => weight (snd kv) + n) 0 d.
Proof.
  induction d as [|a d IH]; simpl; [tauto|].
  intros [->|H]; [lia|]. specialize (IH H). lia.
Qed.

Lemma weight_asdict_inner (x : value) : weight (_asdict_inner x) <= weight x.
Proof.
  induction x as [s|s|m u|l IH|d IH|fs IH] using value_nested_ind;
    simpl; try lia.
  - apply le_n_S. induction IH; simpl; lia.
  - apply le_n_S. induction IH; simpl; lia.
  - apply le_S, le_n_S. induction IH; simpl; lia.
Qed.

Lemma weight_asdict_record (fs : list (string * value)) :
  weight (asdict (VRecord fs)) < weight (VRecord fs).
Proof.
  unfold asdict. simpl. apply le_n_S, le_n_S.
  induction fs as [|kv fs IH]; simpl; [lia|].
  pose proof (weight_asdict_inner (snd kv)). lia.
Qed.

Lemma in_enumerate_r (A : Type) (x : list A) (iv : nat * A) :
  In iv (enumerate x) -> In (snd iv) x.
Proof.
  destruct iv as [i v]. unfold enumerate. intros H.
  apply in_combine_r in H. exact H.
Qed.

(** [map] whose function may use that its argument is in the list. *)
Fixpoint map_In (A B : Type) (l : list A) : (forall x, In x l -> B) -> list B :=
  match l with
  | [] => fun _ => []
  | a :: r => fun f =>
      f a (or_introl eq_refl) :: @map_In A B r (fun x H => f x (or_intror H))
  end.

Lemma map_In_map (A B : Type) (g : A -> B) (l : list A) :
  map_In l (fun x _ => g x) = map g l.
Proof. induction l as [|a l IH]; simpl; [reflexivity|]. now rewrite IH. Qed.

(** ** The recursive transform *)

(** [_transform_params_to_json_serializable(x, convert_list_to_dict)];
    [_transform] is the function itself with the same flag. *)
Equations? _transform_params_to_json_serializable
  (x : value) (convert_list_to_dict : bool) : value
  by wf (weight x) lt :=
_transform_params_to_json_serializable (VRecord fs) flag :=
  _transform_params_to_json_serializable (asdict (VRecord fs)) flag;
_transform_params_to_json_serializable (VDict d) flag :=
  VDict (map_In d (fun kv _ =>
    (fst kv, _transform_params_to_json_serializable (snd kv) flag)));
_transform_params_to_json_serializable (VList l) flag :=
  if flag then
    VDict (PyDict.union
      [("list_len", VScalar (SInt (Z.of_nat (List.length l))))]
      (PyDict.of_items (map_In (enumerate l) (fun iv _ =>
         (str_of_nat (fst iv),
          _transform_params_to_json_serializable (snd iv) flag)))))
  else
    VList (map_In l (fun v _ =>
      _transform_params_to_json_serializable v flag));
_transform_params_to_json_serializable (VPath s) _ := VScalar (SStr s);
_transform_params_to_json_serializable (VEnum _ u) _ := VScalar u;
_transform_params_to_json_serializable (VScalar s) _ := VScalar s.
Proof.
  - apply le_n_S, weight_in_list.
    match goal with H : In _ (enumerate _) |- _ =>
      apply in_enumerate_r in H; exact H end.
  - apply le_n_S, weight_in_list. assumption.
  - apply le_n_S.
    match goal with H : In ?kv d |- _ => apply (weight_in_items d kv H) end.
  - apply weight_asdict_record.
Qed.

Abbreviation _transform := _transform_params_to_json_serializable.

(** ** Exceptions *)

Inductive exn : Type :=
| AssertionError (msg : string)
| IndexError
| NotImplementedError
| AttributeError.

Inductive result (A : Type) : Type :=
| Ok (a : A)
| Raise (e : exn).
Arguments Ok {A} a.
Arguments Raise {A} e.

(** ** The tabular-normalization collaborator *)

(** [_flatten_dict] hands the nested mapping to pandas and reads the first
    record of the table it gets back.  pandas is not part of the repository;
    the definitions below follow the path its code takes for this call: the
    mapping is wrapped in a one-element list, [_simple_json_normalize]
    flattens it with [_normalise_json_ordered], the [DataFrame] constructor
    makes a one-row table of the result, and [to_dict(orient='records')]
    zips the column arrays into one mapping per row. *)

Module Pandas.

(** Modelled from the spec: [str.removeprefix] of the Python runtime, which
    pandas uses when it builds a column name and which is not part of this
    repository. *)
Definition removeprefix (s p : string) : string :=
  if String.prefix p s
  then substring (String.length p) (String.length s - String.length p) s
  else s.

(** Modelled from the spec: pandas' [_normalise_json], absent from the
    repository.  It walks the nested mappings depth first and stores each
    leaf in [normalized_dict] under the separator-joined keys that lead to
    it: [new_key] is [key_string], the separator and the key, and while
    [key_string] is still blank the separator just put in front is removed
    again with [removeprefix]. *)
Fixpoint _normalise_json (data : value) (key_string : string)
    (normalized_dict : dict value) (separator : string) : dict value :=
  match data with
  | VDict d =>
      (fix items (l : list (string * value)) (acc : dict value) : dict value :=
         match l with
         | [] => acc
         | (key, v) :: r =>
             let new_key := (key_string ++ separator ++ key)%string in
             let new_key :=
               if String.eqb key_string ""
               then removeprefix new_key separator
               else new_key in
             items r (_normalise_json v new_key acc separator)
         end) d normalized_dict
  | _ => PyDict.set normalized_dict key_string data
  end.

Definition is_dict (v : value) : bool :=
  match v with VDict _ => true | _ => false end.

(** Modelled from the spec: pandas' [_normalise_json_ordered], absent from
    the repository: the top-level entries that are not mappings come first,
    then the flattened nested ones. *)
Definition _normalise_json_ordered (data : dict value) (separator : string)
  : dict value :=
  let top_dict_ := filter (fun kv => negb (is_dict (snd kv))) data in
  let nested_dict_ :=
    _normalise_json (VDict (filter (fun kv => is_dict (snd kv)) data))
      "" [] separator in
  PyDict.union top_dict_ nested_dict_.

(** Modelled from the spec: a pandas [DataFrame], absent from the
    repository, as its column labels, one array of cells per column, and
    the length of its index. *)
Record DataFrame : Type := mkDataFrame {
  columns : list string;
  arrays : list (list value);
  index : nat
}.

(** Modelled from the spec: the [DataFrame] constructor on the one-element
    list of records that [json_normalize] makes of a mapping: a column per
    key, one row. *)
Definition DataFrame_of_record (row : dict value) : DataFrame :=
  {| columns := PyDict.keys row;
     arrays := map (fun v => [v]) (PyDict.values row);
     index := 1 |}.

(** Modelled from the spec: [pd.json_normalize(data, sep=sep)] on a
    mapping, absent from the repository: a single-level table whose column
    names are the joined key paths. *)
Definition json_normalize (data : dict value) (sep : string) : DataFrame :=
  DataFrame_of_record (_normalise_json_ordered data sep).

Section Zip.
Variable A : Type.

Fixpoint heads (its : list (list A)) : option (list A) :=
  match its with
  | [] => Some []
  | [] :: _ => None
  | (a :: _) :: r =>
      match heads r with Some hs => Some (a :: hs) | None => None end
  end.

Fixpoint zip_upto (n : nat) (its : list (list A)) : list (list A) :=
  match n with
  | O => []
  | S n' =>
      match heads its with
      | Some hs => hs :: zip_upto n' (map (@tl A) its)
      | None => []
      end
  end.

(** Modelled from the spec: Python's [zip] over the unpacked iterables, not
    part of the repository: tuples are produced until the shortest iterable
    runs out, and none at all when there is no iterable. *)
Definition zip_star (its : list (list A)) : list (list A) :=
  match its with
  | [] => []
  | a :: _ => zip_upto (List.length a) its
  end.
End Zip.

(** Modelled from the spec: [DataFrame.itertuples(index=False, name=None)],
    absent from the repository, which zips the column arrays. *)
Definition itertuples (df : DataFrame) : list (list value) :=
  zip_star (arrays df).

(** Modelled from the spec: [DataFrame.to_dict(orient='records')], absent
    from the repository: one mapping from column name to cell per tuple. *)
Definition to_dict_records (df : DataFrame) : list (dict value) :=
  map (fun row => PyDict.of_items (combine (columns df) row)) (itertuples df).

End Pandas.

(** ** The normalizer *)

Section Normalizer.

(** [pd.json_normalize(raw, sep=sep).to_dict(orient='records')] *)
Variable json_normalize_records : dict value -> string -> list (dict value).

(** [_flatten_dict(raw, sep=sep)]; the final [assert isinstance(ans, dict)]
    holds of every record. *)
Definition _flatten_dict_with (raw : dict value) (sep : string)
  : result (dict value) :=
  match nth_error (json_normalize_records raw sep) 0 with
  | Some ans => Ok ans
  | None => Raise IndexError
  end.

(** [_compute_mlflow_params_from_objects(params)].  With the flag true the
    transform returns a mapping or a scalar (lemma
    [transform_convert_shape]).  [_flatten_dict] is declared on mappings;
    when the transformed object is a scalar there is no mapping to tabulate
    and [json_normalize] raises [NotImplementedError]. *)
Definition _compute_mlflow_params_from_objects_with (params : option value)
  : result (dict value) :=
  match params with
  | None => Ok []
  | Some params =>
      match _transform params true with
      | VDict raw => _flatten_dict_with raw "/"
      | _ => Raise NotImplementedError
      end
  end.

End Normalizer.

Definition json_normalize_records (raw : dict value) (sep : string)
  : list (dict value) :=
  Pandas.to_dict_records (Pandas.json_normalize raw sep).

Definition _flatten_dict : dict value -> string -> result (dict value) :=
  _flatten_dict_with json_normalize_records.

Definition _compute_mlflow_params_from_objects
  : option value -> result (dict value) :=
  _compute_mlflow_params_from_objects_with json_normalize_records.

Abbreviation normalize := _compute_mlflow_params_from_objects.

Definition VInt (z : Z) : value := VScalar (SInt z).
Definition VStr (s : string) : value := VScalar (SStr s).

(** ** The tracking facade *)

Module Tracking.

Definition supported_backend : list string := ["wandb"; "mlflow"; "console"].

(** The objects stored in [self.logger]: the [wandb] module, a
    [_MlflowLoggingAdapter], a [LocalLogger]. *)
Inductive handle : Type :=
| Wandb
| MlflowLoggingAdapter
| LocalLogger (print_to_console : bool).

(** The calls that leave the module, in the order they are made: to
    [warnings], to the [wandb] and [mlflow] libraries, and to [LocalLogger]
    (verl.utils.logger.aggregate_logger), none of which is part of the
    sources at hand.  Each call is recorded and returns. *)
Inductive event : Type :=
| Warn (message category : string)
| WandbLogin (key : string) (relogin : bool)
| WandbInit (entity : option string) (project name : string)
    (config : option value)
| MlflowStartRun (run_name : string)
| MlflowLogParams (params : dict value)
| LocalLoggerNew (print_to_console : bool)
| WandbLog (data : dict value) (step : Z)
| MlflowLogMetrics (metrics : dict value) (step : Z)
| LocalLoggerLog (data : dict value) (step : Z).

(** The process environment, the attributes of [self] ([None] while an
    attribute has not been assigned) and the calls made so far. *)
Record state : Type := mkState {
  environ : dict string;
  logger : option (dict handle);
  console_logger : option handle;
  effects : list event
}.

(** A [Tracking] object before [__init__] runs. *)
Definition fresh (env : dict string) : state :=
  {| environ := env; logger := None; console_logger := None; effects := [] |}.

(** Computations that read and change the state and may raise. *)
Definition M (A : Type) : Type := state -> result A * state.

Definition ret {A : Type} (a : A) : M A := fun st => (Ok a, st).

Definition bind {A B : Type} (m : M A) (f : A -> M B) : M B :=
  fun st =>
    match m st with
    | (Ok a, st') => f a st'
    | (Raise e, st') => (Raise e, st')
    end.

Definition raise {A : Type} (e : exn) : M A := fun st => (Raise e, st).

Definition lift {A : Type} (r : result A) : M A := fun st => (r, st).

Declare Scope py_scope.
Delimit Scope py_scope with py.
Notation "x <- m ;; k" := (bind m (fun x => k))
  (at level 61, m at next level, right associativity) : py_scope.
Notation "m ;; k" := (bind m (fun _ => k))
  (at level 61, right associativity) : py_scope.
Local Open Scope py_scope.

Definition add_effects (st : state) (es : list event) : state :=
  {| environ := environ st; logger := logger st;
     console_logger := console_logger st;
     effects := effects st ++ es |}.

(** A call that leaves the module. *)
Definition emit (e : event) : M unit :=
  fun st => (Ok tt, add_effects st [e]).

(** [os.getenv(name)] *)
Definition getenv (name : string) : M (option string) :=
  fun st => (Ok (PyDict.get (environ st) name), st).

(** [self.logger = {}] *)
Definition new_logger : M unit :=
  fun st =>
    (Ok tt, {| environ := environ st; logger := Some [];
               console_logger := console_logger st;
               effects := effects st |}).

(** [self.logger[name] = h] *)
Definition logger_setitem (name : string) (h : handle) : M unit :=
  fun st =>
    match logger st with
    | Some reg =>
        (Ok tt, {| environ := environ st;
                   logger := Some (PyDict.set reg name h);
                   console_logger := console_logger st;
                   effects := effects st |})
    | None => (Raise AttributeError, st)
    end.

(** [self.console_logger = h] *)
Definition set_console_logger (h : handle) : M unit :=
  fun st =>
    (Ok tt, {| environ := environ st; logger := logger st;
               console_logger := Some h;
               effects := effects st |}).

(** [self.logger] *)
Definition get_logger : M (dict handle) :=
  fun st =>
    match logger st with
    | Some reg => (Ok reg, st)
    | None => (Raise AttributeError, st)
    end.

(** [assert cond, msg] *)
Definition assert_ (cond : bool) (msg : string) : M unit :=
  if cond then ret tt else raise (AssertionError msg).

(** [if cond: body] *)
Definition when (cond : bool) (body : M unit) : M unit :=
  if cond then body else ret tt.

(** [for x in xs: body(x)] *)
Fixpoint for_each {A : Type} (xs : list A) (body : A -> M unit) : M unit :=
  match xs with
  | [] => ret tt
  | x :: r => body x ;; for_each r body
  end.

(** [name in names] *)
Definition contains (names : list string) (name : string) : bool :=
  existsb (String.eqb name) names.

(** The truth value of [os.getenv]'s result. *)
Definition truthy (s : option string) : bool :=
  match s with
  | Some s => negb (String.eqb s "")
  | None => false
  end.

(** [default_backend]: a name or a list of names. *)
Inductive backend_arg : Type :=
| Name (s : string)
| Names (l : list string).

Definition deprecation_message : string :=
  "`tracking` logger is deprecated. use `wandb` instead.".

(** The body of the loop that checks the requested names. *)
Definition check_backend (backend : string) : M unit :=
  if String.eqb backend "tracking" then
    emit (Warn deprecation_message "DeprecationWarning")
  else
    assert_ (contains supported_backend backend)
      (backend ++ " is not supported").

(** [Tracking.__init__] *)
Definition __init__ (project_name experiment_name : string)
    (default_backend : backend_arg) (config : option value) : M unit :=
  let default_backend :=
    match default_backend with
    | Name s => [s]
    | Names l => l
    end in
  for_each default_backend check_backend ;;
  new_logger ;;
  when (contains default_backend "wandb" || contains default_backend "tracking")
    (api_key <- getenv "WANDB_API_KEY" ;;
     when (truthy api_key)
       (emit (WandbLogin (match api_key with Some k => k | None => "" end)
                true)) ;;
     entity <- getenv "WANDB_ENTITY" ;;
     emit (WandbInit entity project_name experiment_name config) ;;
     logger_setitem "wandb" Wandb) ;;
  when (contains default_backend "mlflow")
    (emit (MlflowStartRun experiment_name) ;;
     params <- lift (_compute_mlflow_params_from_objects config) ;;
     emit (MlflowLogParams params) ;;
     logger_setitem "mlflow" MlflowLoggingAdapter) ;;
  when (contains default_backend "console")
    (emit (LocalLoggerNew true) ;;
     set_console_logger (LocalLogger true) ;;
     logger_setitem "console" (LocalLogger true)).

(** [logger_instance.log(data=data, step=step)]: [wandb.log], the
    adapter's [mlflow.log_metrics(metrics=data, step=step)], or the local
    logger's own [log]. *)
Definition handle_log (h : handle) (data : dict value) (step : Z) : M unit :=
  match h with
  | Wandb => emit (WandbLog data step)
  | MlflowLoggingAdapter => emit (MlflowLogMetrics data step)
  | LocalLogger _ => emit (LocalLoggerLog data step)
  end.

(** [Tracking.log] *)
Definition log (data : dict value) (step : Z) (backend : option (list string))
  : M unit :=
  items <- get_logger ;;
  for_each items (fun item =>
    let name := fst item in
    let logger_instance := snd item in
    when (match backend with
          | None => true
          | Some names => contains names name
          end)
      (handle_log logger_instance data step)).

End Tracking.

(** * Part II: the vocabulary of the properties *)

(** ** Leaves and key paths *)

(** The leaves of a nested mapping, each with the keys traversed from the
    root to reach it. *)
Fixpoint leaves (x : value) : list (list string * value) :=
  match x with
  | VDict d =>
      flat_map (fun kv =>
        map (fun pl => (fst kv :: fst pl, snd pl)) (leaves (snd kv))) d
  | _ => [([], x)]
  end.

Definition slash_join (path : list string) : string := String.concat "/" path.

(** The leaves under their separator-joined key paths. *)
Definition joined (sep : string) (x : value) : list (string * value) :=
  map (fun pl => (String.concat sep (fst pl), snd pl)) (leaves x).

Definition is_scalar (v : value) : bool :=
  match v with VScalar _ => true | _ => false end.

(** Nested mappings with scalar leaves. *)
Fixpoint scalar_tree (x : value) : bool :=
  match x with
  | VScalar _ => true
  | VDict d => forallb (fun kv => scalar_tree (snd kv)) d
  | _ => false
  end.

(** A mapping one level deep with scalar leaves. *)
Definition flat_mapping (d : dict value) : bool :=
  forallb (fun kv => is_scalar (snd kv)) d.

(** No top-level key that holds a mapping is the empty string. *)
Definition top_keys_named (d : dict value) : Prop :=
  forall k v, In (k, v) d -> Pandas.is_dict v = true -> k <> "".

(** [m] is a flat mapping keyed by the slash-joined key paths of the leaves
    of the nested mapping [d]. *)
Definition keyed_by_joined_paths (d m : dict value) : Prop :=
  NoDup (PyDict.keys m)
  /\ (forall k v, In (k, v) m ->
        is_scalar v = true
        /\ exists p, In (p, v) (leaves (VDict d)) /\ k = slash_join p)
  /\ (forall p v, In (p, v) (leaves (VDict d)) ->
        In (slash_join p) (PyDict.keys m))
  /\ (NoDup (map (fun pl => slash_join (fst pl)) (leaves (VDict d))) ->
      forall p v, In (p, v) (leaves (VDict d)) ->
        PyDict.get m (slash_join p) = Some v).

(** The indexed mapping a sequence is converted into. *)
Definition indexed_mapping (l : list value) (m : dict value) : Prop :=
  PyDict.keys m = "list_len" :: map str_of_nat (seq 0 (List.length l))
  /\ PyDict.get m "list_len" = Some (VInt (Z.of_nat (List.length l)))
  /\ forall i v, nth_error l i = Some v ->
       PyDict.get m (str_of_nat i) = Some (_transform v true).

(** The recursive transform as its six rules state it, by recursion on the
    object: a structured record becomes the mapping of its field names to its
    transformed field values; a mapping is transformed value by value, the
    keys kept; a sequence becomes, when [flag] is set, the mapping with a
    list_len entry holding its length and one entry per element keyed by its
    stringified index, and otherwise the sequence of its transformed
    elements; a path becomes its string form; an enumeration member its
    underlying value; any other value passes through unchanged. *)
Fixpoint transformed (flag : bool) (x : value) : value :=
  match x with
  | VRecord fs =>
      VDict (map (fun kv => (fst kv, transformed flag (snd kv))) fs)
  | VDict d =>
      VDict (map (fun kv => (fst kv, transformed flag (snd kv))) d)
  | VList l =>
      if flag then
        VDict (("list_len", VScalar (SInt (Z.of_nat (List.length l))))
               :: combine (map str_of_nat (seq 0 (List.length l)))
                          (map (transformed flag) l))
      else VList (map (transformed flag) l)
  | VPath s => VScalar (SStr s)
  | VEnum _ u => VScalar u
  | VScalar s => VScalar s
  end.

(** ** The steps of the tabular normalization *)

(** The column name built for [key] below [key_string]. *)
Definition new_key (key_string separator key : string) : string :=
  if String.eqb key_string ""
  then Pandas.removeprefix (key_string ++ separator ++ key) separator
  else (key_string ++ separator ++ key)%string.

(** The assignments [_normalise_json] performs, in order. *)
Fixpoint flat_items (data : value) (key_string separator : string)
  : list (string * value) :=
  match data with
  | VDict d =>
      flat_map (fun kv =>
        flat_items (snd kv) (new_key key_string separator (fst kv)) separator) d
  | _ => [(key_string, data)]
  end.

(** The column name reached from [key_string] along [path]. *)
Fixpoint extend (sep key_string : string) (path : list string) : string :=
  match path with
  | [] => key_string
  | k :: r => extend sep (key_string ++ sep ++ k)%string r
  end.

(** The two halves [_normalise_json_ordered] splits a mapping into. *)
Definition top_entries (d : dict value) : dict value :=
  filter (fun kv => negb (Pandas.is_dict (snd kv))) d.
Definition nested_entries (d : dict value) : dict value :=
  filter (fun kv => Pandas.is_dict (snd kv)) d.

(** ** The facade *)

Module TrackingSpec.
Import Tracking.
Local Open Scope py_scope.

(** The names [__init__] iterates over. *)
Definition backend_names (arg : backend_arg) : list string :=
  match arg with
  | Name s => [s]
  | Names l => l
  end.

(** The backend list holds [name] and nothing else. *)
Definition only (name : string) (arg : backend_arg) : Prop :=
  arg = Name name \/ arg = Names [name].

(** The names the validation loop lets pass. *)
Definition accepted (backend : string) : bool :=
  String.eqb backend "tracking" || contains supported_backend backend.

Definition deprecation_warning : event :=
  Warn deprecation_message "DeprecationWarning".

(** The warnings the validation loop emits on a list of names. *)
Definition warnings_of (l : list string) : list event :=
  map (fun _ => deprecation_warning)
      (filter (fun b => String.eqb b "tracking") l).

(** What follows the validation loop in [__init__]. *)
Definition initialize (project_name experiment_name : string)
    (names : list string) (config : option value) : M unit :=
  new_logger ;;
  when (contains names "wandb" || contains names "tracking")
    (api_key <- getenv "WANDB_API_KEY" ;;
     when (truthy api_key)
       (emit (WandbLogin (match api_key with Some k => k | None => "" end)
                true)) ;;
     entity <- getenv "WANDB_ENTITY" ;;
     emit (WandbInit entity project_name experiment_name config) ;;
     logger_setitem "wandb" Wandb) ;;
  when (contains names "mlflow")
    (emit (MlflowStartRun experiment_name) ;;
     params <- lift (_compute_mlflow_params_from_objects config) ;;
     emit (MlflowLogParams params) ;;
     logger_setitem "mlflow" MlflowLoggingAdapter) ;;
  when (contains names "console")
    (emit (LocalLoggerNew true) ;;
     set_console_logger (LocalLogger true) ;;
     logger_setitem "console" (LocalLogger true)).

(** The native logging call of a handle. *)
Definition native_call (h : handle) (data : dict value) (step : Z) : event :=
  match h with
  | Wandb => WandbLog data step
  | MlflowLoggingAdapter => MlflowLogMetrics data step
  | LocalLogger _ => LocalLoggerLog data step
  end.

(** [backend is None or name in backend] *)
Definition admitted (backend : option (list string)) (name : string) : bool :=
  match backend with
  | None => true
  | Some names => contains names name
  end.

(** The calls one [log] makes. *)
Definition forwarded (reg : dict handle) (data : dict value) (step : Z)
    (backend : option (list string)) : list event :=
  map (fun item => native_call (snd item) data step)
      (filter (fun item => admitted backend (fst item)) reg).

End TrackingSpec.

(** The registry and the calls of a construction. *)
Module InitSpec.
Import Tracking TrackingSpec.

(** The hosted-metrics backend is requested under its name or the alias. *)
Definition wandb_requested (names : list string) : bool :=
  contains names "wandb" || contains names "tracking".

(** Whether the request asks for the supported backend [b]. *)
Definition requested (names : list string) (b : string) : bool :=
  if String.eqb b "wandb" then wandb_requested names else contains names b.

(** The handle [__init__] stores for a supported backend. *)
Definition handle_of (b : string) : handle :=
  if String.eqb b "wandb" then Wandb
  else if String.eqb b "mlflow" then MlflowLoggingAdapter
  else LocalLogger true.

(** The requested backends in the order [__init__] initializes them. *)
Definition registry_for (names : list string) : dict handle :=
  map (fun b => (b, handle_of b)) (filter (requested names) supported_backend).

(** The calls made to initialize the hosted-metrics backend. *)
Definition wandb_calls (env : dict string) (project_name experiment_name : string)
    (config : option value) : list event :=
  (if truthy (PyDict.get env "WANDB_API_KEY")
   then [WandbLogin (match PyDict.get env "WANDB_API_KEY" with
                     | Some k => k
                     | None => ""
                     end) true]
   else [])
  ++ [WandbInit (PyDict.get env "WANDB_ENTITY") project_name experiment_name
        config].

(** The calls a successful construction makes after the warnings. *)
Definition init_calls (env : dict string) (project_name experiment_name : string)
    (names : list string) (config : option value) (params : dict value)
  : list event :=
  (if wandb_requested names
   then wandb_calls env project_name experiment_name config else [])
  ++ (if contains names "mlflow"
      then [MlflowStartRun experiment_name; MlflowLogParams params] else [])
  ++ (if contains names "console" then [LocalLoggerNew true] else []).

(** A call that logs metrics. *)
Definition is_log_call (e : event) : bool :=
  match e with
  | WandbLog _ _ | MlflowLogMetrics _ _ | LocalLoggerLog _ _ => true
  | _ => false
  end.

End InitSpec.

(** ** Sample inputs *)

Definition model_config : dict value :=
  [("model", VDict [("lr", VInt 1)]); ("seed", VInt 7)].

Definition flat_config : dict value :=
  [("lr", VInt 3); ("name", VStr "ppo"); ("debug", VScalar (SBool false));
   ("resume", VScalar SNone)].

(** The object left behind when mlflow is requested with the configuration
    {}. *)
Definition empty_config_state : Tracking.state :=
  {| Tracking.environ := [];
     Tracking.logger := Some [];
     Tracking.console_logger := None;
     Tracking.effects := [Tracking.MlflowStartRun "exp"] |}.

(** The facade built for wandb and console with an API key in the
    environment. *)
Definition two_backend_facade : Tracking.state :=
  {| Tracking.environ := [("WANDB_API_KEY", "k3y")];
     Tracking.logger :=
       Some [("wandb", Tracking.Wandb);
             ("console", Tracking.LocalLogger true)];
     Tracking.console_logger := Some (Tracking.LocalLogger true);
     Tracking.effects :=
       [Tracking.WandbLogin "k3y" true;
        Tracking.WandbInit None "proj" "exp" None;
        Tracking.LocalLoggerNew true] |}.

(** * Part III: lemmas *)

Example transform_ex1 :
  _transform (VDict [("items", VList [VScalar (SInt 10); VPath "/tmp"])]) true
  = VDict [("items", VDict [("list_len", VScalar (SInt 2));
                            ("0", VScalar (SInt 10));
                            ("1", VScalar (SStr "/tmp"))])].
Proof. reflexivity. Qed.

Example transform_ex2 :
  _transform (VRecord [("lr", VScalar (SInt 1));
                       ("opt", VRecord [("name", VEnum "ADAM" (SStr "adam"))])])
             false
  = VDict [("lr", VScalar (SInt 1));
           ("opt", VDict [("name", VScalar (SStr "adam"))])].
Proof. reflexivity. Qed.

Example normalize_ex1 :
  normalize (Some (VDict [("a", VDict [("b", VInt 1)])])) = Ok [("a/b", VInt 1)].
Proof. reflexivity. Qed.

Example normalize_ex2 :
  normalize (Some (VDict [("items", VList [VInt 10; VInt 20])]))
  = Ok [("items/list_len", VInt 2); ("items/0", VInt 10); ("items/1", VInt 20)].
Proof. reflexivity. Qed.

Example normalize_ex3 :
  normalize (Some (VDict [("a", VDict [("b", VInt 1)]); ("c", VInt 2)]))
  = Ok [("c", VInt 2); ("a/b", VInt 1)].
Proof. reflexivity. Qed.

Example normalize_ex4 : normalize (Some (VDict [])) = Raise IndexError.
Proof. reflexivity. Qed.

Example normalize_ex5 :
  normalize (Some (VDict [("", VDict [("b", VInt 1)])])) = Ok [("b", VInt 1)].
Proof. reflexivity. Qed.

Example normalize_ex6 :
  normalize (Some (VDict [("a", VDict [("b", VInt 1)]); ("a/b", VInt 2)]))
  = Ok [("a/b", VInt 1)].
Proof. reflexivity. Qed.

Example two_backend_facade_constructed :
  Tracking.__init__ "proj" "exp" (Tracking.Names ["console"; "wandb"]) None
    (Tracking.fresh [("WANDB_API_KEY", "k3y")])
  = (Ok tt, two_backend_facade).
Proof. reflexivity. Qed.

Example log_console_only :
  Tracking.log [("loss", VInt 2)] 5 (Some ["console"]) two_backend_facade
  = (Ok tt, Tracking.add_effects two_backend_facade
              [Tracking.LocalLoggerLog [("loss", VInt 2)] 5]).
Proof. reflexivity. Qed.

(** ** Facts about dictionaries *)

Module PyDictFacts.
Import PyDict.
Section Facts.
Variable A : Type.
Implicit Types (d items : dict A) (k : string) (v : A).

Lemma get_set_same d k v : get (set d k v) k = Some v.
Proof.
  induction d as [|[k' v'] d IH]; simpl.
  - now rewrite String.eqb_refl.
  - destruct (String.eqb k' k) eqn:E; simpl; rewrite E; auto.
Qed.

Lemma get_set_other d k k' v : k <> k' -> get (set d k v) k' = get d k'.
Proof.
  intros N. induction d as [|[k0 v0] d IH]; simpl.
  - apply String.eqb_neq in N. now rewrite N.
  - destruct (String.eqb k0 k) eqn:E; simpl.
    + apply String.eqb_eq in E. subst k0.
      apply String.eqb_neq in N. now rewrite N.
    + destruct (String.eqb k0 k'); auto.
Qed.

Lemma get_Some_In d k v : get d k = Some v -> In (k, v) d.
Proof.
  induction d as [|[k' v'] d IH]; simpl; [discriminate|].
  destruct (String.eqb k' k) eqn:E.
  - apply String.eqb_eq in E. intros [= ->]. left. now subst.
  - intros H. right. auto.
Qed.

Lemma get_None_iff d k : get d k = None <-> ~ In k (keys d).
Proof.
  induction d as [|[k' v'] d IH]; simpl; [tauto|].
  destruct (String.eqb_spec k' k) as [->|N].
  - split; [discriminate|]. intros H. exfalso. apply H. now left.
  - rewrite IH. tauto.
Qed.

Lemma In_keys_get d k : In k (keys d) -> exists v, get d k = Some v.
Proof.
  intros H. destruct (get d k) as [v|] eqn:E; [now exists v|].
  apply get_None_iff in E. contradiction.
Qed.

Lemma NoDup_In_get d k v :
  NoDup (keys d) -> In (k, v) d -> get d k = Some v.
Proof.
  induction d as [|[k' v'] d IH]; simpl; [tauto|].
  intros ND [E|H].
  - injection E as -> ->. now rewrite String.eqb_refl.
  - inversion ND as [|? ? Hk ND']; subst.
    destruct (String.eqb_spec k' k) as [->|N]; [|auto].
    exfalso. apply Hk. apply (in_map fst) in H. exact H.
Qed.

Lemma set_fresh d k v : ~ In k (keys d) -> set d k v = d ++ [(k, v)].
Proof.
  induction d as [|[k' v'] d IH]; simpl; [reflexivity|].
  intros H. destruct (String.eqb_spec k' k) as [->|N]; [tauto|].
  rewrite IH; tauto.
Qed.

Lemma keys_set d k v :
  keys (set d k v) =
    match get d k with Some _ => keys d | None => keys d ++ [k] end.
Proof.
  induction d as [|[k' v'] d IH]; simpl; [reflexivity|].
  destruct (String.eqb k' k) eqn:E; simpl; [reflexivity|].
  rewrite IH. now destruct (get d k).
Qed.

Lemma NoDup_keys_set d k v : NoDup (keys d) -> NoDup (keys (set d k v)).
Proof.
  intros ND. rewrite keys_set. destruct (get d k) eqn:E; [exact ND|].
  apply get_None_iff in E.
  apply NoDup_app; [exact ND | repeat constructor; simpl; tauto |].
  intros x Hx [<-|[]]. contradiction.
Qed.

Lemma NoDup_keys_update d items :
  NoDup (keys d) -> NoDup (keys (update d items)).
Proof.
  unfold update. revert d.
  induction items as [|[k v] items IH]; simpl; intros d ND; [exact ND|].
  apply IH, NoDup_keys_set, ND.
Qed.

Lemma NoDup_keys_of_items items : NoDup (keys (of_items items)).
Proof. apply NoDup_keys_update. constructor. Qed.

(** Items with new, pairwise different keys are appended in order. *)
Lemma update_fresh d items :
  NoDup (keys items) ->
  (forall k, In k (keys items) -> ~ In k (keys d)) ->
  update d items = d ++ items.
Proof.
  unfold update. revert d.
  induction items as [|[k v] items IH]; simpl; intros d ND F.
  - now rewrite app_nil_r.
  - inversion ND as [|? ? Hk ND']; subst.
    rewrite set_fresh by (apply F; now left).
    rewrite IH; [now rewrite <- app_assoc | exact ND' |].
    intros k' Hk' Hin. unfold keys in Hin. rewrite map_app in Hin.
    apply in_app_or in Hin. destruct Hin as [Hin|[<-|[]]].
    + apply (F k'); [now right | exact Hin].
    + contradiction.
Qed.

Lemma of_items_NoDup items : NoDup (keys items) -> of_items items = items.
Proof.
  intros ND. unfold of_items. rewrite update_fresh; auto.
Qed.

(** What [update] leaves under a key: the last of the new items with
    that key, or else what was there. *)
Lemma get_update d items k :
  get (update d items) k =
    match get (rev items) k with
    | Some v => Some v
    | None => get d k
    end.
Proof.
  unfold update. revert d.
  induction items as [|[k' v'] items IH]; simpl; intros d; [reflexivity|].
  rewrite IH.
  assert (E : get (rev items ++ [(k', v')]) k =
                match get (rev items) k with
                | Some v => Some v
                | None => if String.eqb k' k then Some v' else None
                end).
  { generalize (rev items) as l.
    induction l as [|[k0 v0] l IHl]; simpl; [reflexivity|].
    destruct (String.eqb k0 k); auto. }
  rewrite E. destruct (get (rev items) k) as [v|]; [reflexivity|].
  destruct (String.eqb_spec k' k) as [->|N].
  - apply get_set_same.
  - now apply get_set_other.
Qed.

Lemma get_of_items_In items k v :
  get (of_items items) k = Some v -> In (k, v) items.
Proof.
  unfold of_items. rewrite get_update. simpl.
  destruct (get (rev items) k) as [v'|] eqn:E; [|discriminate].
  intros [= ->]. apply get_Some_In in E. now apply in_rev.
Qed.

Lemma keys_of_items_In items k :
  In k (keys (of_items items)) <-> In k (keys items).
Proof.
  split; intros H.
  - apply In_keys_get in H. destruct H as [v H].
    apply get_of_items_In in H. apply (in_map fst) in H. exact H.
  - destruct (get (of_items items) k) as [v|] eqn:E.
    + apply get_Some_In in E. apply (in_map fst) in E. exact E.
    + exfalso. unfold of_items in E. rewrite get_update in E.
      destruct (get (rev items) k) eqn:E'; [discriminate|].
      apply get_None_iff in E'. apply E'.
      unfold keys in *. rewrite map_rev. apply in_rev.
      now rewrite rev_involutive.
Qed.
End Facts.
End PyDictFacts.

(** ** Index keys *)

Lemma str_of_nat_inj (i j : nat) : str_of_nat i = str_of_nat j -> i = j.
Proof.
  unfold str_of_nat. intros E.
  apply (f_equal NilEmpty.uint_of_string) in E.
  rewrite !NilEmpty.usu in E. injection E as E.
  apply (f_equal Nat.of_uint) in E. now rewrite !DecimalNat.Unsigned.of_to in E.
Qed.

Lemma str_of_nat_not_list_len (i : nat) : str_of_nat i <> "list_len".
Proof.
  unfold str_of_nat. intros E.
  apply (f_equal NilEmpty.uint_of_string) in E.
  rewrite NilEmpty.usu in E. discriminate E.
Qed.

Lemma NoDup_map_inj (A B : Type) (f : A -> B) (l : list A) :
  (forall x y, f x = f y -> x = y) -> NoDup l -> NoDup (map f l).
Proof.
  intros Hf ND. induction ND as [|x l Hx ND IH]; simpl; constructor; auto.
  intros H. apply in_map_iff in H. destruct H as [y [E Hy]].
  apply Hf in E. now subst.
Qed.

Lemma enumerate_fst (A : Type) (x : list A) :
  map fst (enumerate x) = seq 0 (List.length x).
Proof.
  unfold enumerate. generalize 0.
  induction x as [|a x IH]; simpl; intros n; [reflexivity|]. now rewrite IH.
Qed.

Lemma enumerate_nth_error (A : Type) (x : list A) (i : nat) (v : A) :
  nth_error x i = Some v -> nth_error (enumerate x) i = Some (i, v).
Proof.
  unfold enumerate.
  assert (G : forall n, nth_error x i = Some v ->
            nth_error (combine (seq n (List.length x)) x) i = Some (n + i, v)).
  { revert i. induction x as [|a x IH]; intros [|i] n; simpl; try discriminate.
    - intros [= ->]. now rewrite Nat.add_0_r.
    - intros H. rewrite (IH i (S n) H). f_equal. f_equal. lia. }
  apply (G 0).
Qed.

Lemma index_keys_NoDup (A B : Type) (g : nat * A -> B) (x : list A) :
  NoDup (PyDict.keys (map (fun iv => (str_of_nat (fst iv), g iv)) (enumerate x))).
Proof.
  unfold PyDict.keys. rewrite map_map. simpl.
  rewrite <- (map_map fst str_of_nat), enumerate_fst.
  apply NoDup_map_inj; [exact str_of_nat_inj | apply seq_NoDup].
Qed.

(** ** Defining equations of the transform *)

Section TransformEquations.
Variable flag : bool.

Lemma transform_scalar (s : scalar) : _transform (VScalar s) flag = VScalar s.
Proof. now simp _transform_params_to_json_serializable. Qed.

Lemma transform_path (s : string) :
  _transform (VPath s) flag = VScalar (SStr s).
Proof. now simp _transform_params_to_json_serializable. Qed.

Lemma transform_enum (m : string) (u : scalar) :
  _transform (VEnum m u) flag = VScalar u.
Proof. now simp _transform_params_to_json_serializable. Qed.

Lemma transform_record (fs : list (string * value)) :
  _transform (VRecord fs) flag = _transform (asdict (VRecord fs)) flag.
Proof. now simp _transform_params_to_json_serializable. Qed.

Lemma transform_dict (d : list (string * value)) :
  _transform (VDict d) flag =
    VDict (map (fun kv => (fst kv, _transform (snd kv) flag)) d).
Proof.
  simp _transform_params_to_json_serializable.
  now rewrite (map_In_map (fun kv => (fst kv, _transform (snd kv) flag))).
Qed.
End TransformEquations.

Lemma transform_list_keep (l : list value) :
  _transform (VList l) false = VList (map (fun v => _transform v false) l).
Proof.
  simp _transform_params_to_json_serializable.
  now rewrite (map_In_map (fun v => _transform v false)).
Qed.

Lemma transform_list_convert (l : list value) :
  _transform (VList l) true =
    VDict (("list_len", VScalar (SInt (Z.of_nat (List.length l))))
           :: map (fun iv => (str_of_nat (fst iv), _transform (snd iv) true))
                  (enumerate l)).
Proof.
  simp _transform_params_to_json_serializable.
  rewrite (map_In_map (fun iv => (str_of_nat (fst iv), _transform (snd iv) true))).
  rewrite PyDictFacts.of_items_NoDup by apply index_keys_NoDup.
  unfold PyDict.union.
  rewrite PyDictFacts.update_fresh; [reflexivity | apply index_keys_NoDup |].
  intros k Hk [E|[]]. unfold PyDict.keys in Hk. rewrite map_map in Hk.
  apply in_map_iff in Hk. destruct Hk as [iv [E' _]]. simpl in E'.
  subst k. exact (str_of_nat_not_list_len _ (eq_sym E)).
Qed.

(** ** Strings *)

Lemma append_assoc (a b c : string) :
  ((a ++ b) ++ c)%string = (a ++ (b ++ c))%string.
Proof. induction a as [|x a IH]; simpl; [reflexivity|]. now rewrite IH. Qed.

Lemma append_nonempty_l (a b : string) : a <> "" -> (a ++ b)%string <> "".
Proof. destruct a; simpl; [tauto | discriminate]. Qed.

Lemma prefix_append (p s : string) : String.prefix p (p ++ s) = true.
Proof.
  induction p as [|x p IH]; simpl; [now destruct s|].
  destruct (ascii_dec x x); [exact IH | tauto].
Qed.

Lemma substring_all (s : string) : substring 0 (String.length s) s = s.
Proof. induction s as [|x s IH]; simpl; [reflexivity|]. now rewrite IH. Qed.

Lemma substring_append_skip (p s : string) (n : nat) :
  substring (String.length p) n (p ++ s) = substring 0 n s.
Proof. induction p as [|x p IH]; simpl; [reflexivity | exact IH]. Qed.

Lemma length_append (a b : string) :
  String.length (a ++ b) = String.length a + String.length b.
Proof. induction a as [|x a IH]; simpl; [reflexivity|]. now rewrite IH. Qed.

Lemma removeprefix_append (p s : string) :
  Pandas.removeprefix (p ++ s) p = s.
Proof.
  unfold Pandas.removeprefix. rewrite prefix_append, substring_append_skip.
  rewrite length_append.
  replace (String.length p + String.length s - String.length p)
    with (String.length s) by lia.
  apply substring_all.
Qed.

(** ** What the tabular normalization computes *)

Module PandasFacts.
Import Pandas.

Lemma new_key_blank (separator key : string) :
  new_key "" separator key = key.
Proof. unfold new_key. simpl. apply removeprefix_append. Qed.

Lemma new_key_joined (key_string separator key : string) :
  key_string <> "" ->
  new_key key_string separator key = (key_string ++ separator ++ key)%string.
Proof.
  intros N. unfold new_key. apply String.eqb_neq in N. now rewrite N.
Qed.

Lemma update_app (A : Type) (d : dict A) (l1 l2 : list (string * A)) :
  PyDict.update d (l1 ++ l2) = PyDict.update (PyDict.update d l1) l2.
Proof. unfold PyDict.update. apply fold_left_app. Qed.

Lemma normalise_json_update (data : value) (separator : string) :
  forall key_string acc,
    _normalise_json data key_string acc separator =
      PyDict.update acc (flat_items data key_string separator).
Proof.
  induction data as [s|s|m u|l IH|d IH|fs IH] using value_nested_ind;
    intros key_string acc; try reflexivity.
  simpl. revert acc. induction IH as [|[key v] d Hv _ IHd]; intros acc.
  - reflexivity.
  - simpl. rewrite update_app. rewrite <- (Hv _ acc).
    rewrite <- IHd. reflexivity.
Qed.

Lemma heads_singletons (vals : list value) :
  heads (map (fun v => [v]) vals) = Some vals.
Proof. induction vals as [|v vals IH]; simpl; [reflexivity|]. now rewrite IH. Qed.

Lemma combine_keys_values (row : dict value) :
  combine (PyDict.keys row) (PyDict.values row) = row.
Proof.
  induction row as [|[k v] row IH]; simpl; [reflexivity|]. now rewrite IH.
Qed.

(** A table without columns has no records, whatever its index. *)
Lemma to_dict_records_no_columns (n : nat) :
  to_dict_records {| columns := []; arrays := []; index := n |} = [].
Proof. reflexivity. Qed.

Lemma to_dict_records_of_record (row : dict value) :
  to_dict_records (DataFrame_of_record row) =
    match row with
    | [] => []
    | _ :: _ => [PyDict.of_items row]
    end.
Proof.
  destruct row as [|[k v] row]; [reflexivity|].
  unfold to_dict_records, itertuples, DataFrame_of_record, zip_star.
  cbn [arrays columns PyDict.values map List.length zip_upto].
  change ([snd (k, v)] :: map (fun v0 => [v0]) (map snd row))
    with (map (fun v0 : value => [v0]) (PyDict.values ((k, v) :: row))).
  rewrite heads_singletons. cbn [map].
  now rewrite combine_keys_values.
Qed.

End PandasFacts.

Lemma flatten_dict_eq (raw : dict value) (sep : string) :
  _flatten_dict raw sep =
    match Pandas._normalise_json_ordered raw sep with
    | [] => Raise IndexError
    | (_ :: _) as row => Ok (PyDict.of_items row)
    end.
Proof.
  unfold _flatten_dict, _flatten_dict_with, json_normalize_records,
    Pandas.json_normalize.
  rewrite PandasFacts.to_dict_records_of_record.
  destruct (Pandas._normalise_json_ordered raw sep); reflexivity.
Qed.

Module PathFacts.
Import Pandas PandasFacts.

Section Sep.
Variable sep : string.

Lemma extend_concat (path : list string) :
  forall k, extend sep k path = String.concat sep (k :: path).
Proof.
  induction path as [|k' r IH]; intros k; [reflexivity|].
  cbn [extend]. rewrite IH.
  destruct r as [|k'' r]; [reflexivity|].
  change (String.concat sep ((k ++ sep ++ k')%string :: k'' :: r))
    with ((k ++ sep ++ k') ++ sep ++ String.concat sep (k'' :: r))%string.
  change (String.concat sep (k :: k' :: k'' :: r))
    with (k ++ sep ++ (k' ++ sep ++ String.concat sep (k'' :: r)))%string.
  now rewrite !append_assoc.
Qed.

Lemma flat_items_extend (v : value) :
  forall key_string, key_string <> "" ->
    flat_items v key_string sep =
      map (fun pl => (extend sep key_string (fst pl), snd pl)) (leaves v).
Proof.
  induction v as [s|s|m u|l IH|d IH|fs IH] using value_nested_ind;
    intros key_string N; try reflexivity.
  cbn [flat_items leaves].
  induction IH as [|[k v] d Hv _ IHd]; [reflexivity|].
  cbn [flat_map fst snd]. rewrite map_app, <- IHd. f_equal.
  rewrite new_key_joined by exact N.
  rewrite Hv by (now apply append_nonempty_l).
  rewrite map_map. reflexivity.
Qed.

(** Below a top-level key the column names are the joined paths, unless
    the key is blank and holds a mapping. *)
Lemma flat_items_top (k : string) (v : value) :
  k <> "" \/ is_dict v = false ->
  flat_items v k sep =
    map (fun pl => (String.concat sep (k :: fst pl), snd pl)) (leaves v).
Proof.
  intros H.
  assert (E : flat_items v k sep =
                map (fun pl => (extend sep k (fst pl), snd pl)) (leaves v)).
  { destruct (String.eqb_spec k "") as [->|N];
      [|now apply flat_items_extend].
    destruct H as [H|H]; [tauto|]. destruct v; try reflexivity.
    discriminate H. }
  rewrite E. apply map_ext. intros pl. now rewrite extend_concat.
Qed.

Lemma flat_items_root (d : dict value) :
  top_keys_named d -> flat_items (VDict d) "" sep = joined sep (VDict d).
Proof.
  unfold joined. cbn [flat_items leaves]. intros K.
  induction d as [|[k v] d IH]; [reflexivity|].
  cbn [flat_map fst snd]. rewrite map_app, <- IH.
  - f_equal. rewrite new_key_blank, map_map. apply flat_items_top.
    destruct (is_dict v) eqn:E; [left | now right].
    apply (K k v); [now left | exact E].
  - intros k' v' H. apply K. now right.
Qed.

Lemma joined_non_dicts (d : dict value) :
  forallb (fun kv => negb (is_dict (snd kv))) d = true ->
  joined sep (VDict d) = d.
Proof.
  unfold joined. cbn [leaves]. induction d as [|[k v] d IH]; [reflexivity|].
  cbn [forallb flat_map fst snd]. intros H.
  apply andb_true_iff in H. destruct H as [Hv Hd].
  rewrite map_app, IH by exact Hd.
  destruct v; try discriminate Hv; reflexivity.
Qed.
End Sep.
End PathFacts.

Module PyDictMore.
Import PyDict PyDictFacts.
Section More.
Variable A : Type.
Implicit Types (d items : dict A) (k : string) (v : A).

Lemma In_set d k v (kv : string * A) :
  In kv (set d k v) -> In kv d \/ kv = (k, v).
Proof.
  induction d as [|[k' v'] d IH]; simpl.
  - intros [<-|[]]. now right.
  - destruct (String.eqb_spec k' k) as [->|N]; simpl.
    + intros [<-|H]; [now right | left; now right].
    + intros [<-|H]; [left; now left|].
      destruct (IH H) as [H' | H']; [left; now right | now right].
Qed.

Lemma In_update d items (kv : string * A) :
  In kv (update d items) -> In kv d \/ In kv items.
Proof.
  unfold update. revert d.
  induction items as [|[k v] items IH]; simpl; intros d H; [now left|].
  apply IH in H. destruct H as [H|H]; [|right; now right].
  apply In_set in H. destruct H as [H | ->]; [now left | right; now left].
Qed.

Lemma In_of_items items (kv : string * A) :
  In kv (of_items items) -> In kv items.
Proof. intros H. apply In_update in H. now destruct H. Qed.

Lemma In_keys_update d items k :
  In k (keys d) \/ In k (keys items) -> In k (keys (update d items)).
Proof.
  intros H.
  destruct (get (update d items) k) as [v|] eqn:E.
  - apply get_Some_In in E. apply (in_map fst) in E. exact E.
  - exfalso. rewrite get_update in E.
    destruct (get (rev items) k) eqn:E'; [discriminate|].
    apply get_None_iff in E. apply get_None_iff in E'.
    destruct H as [H|H]; [contradiction|]. apply E'.
    unfold keys in *. rewrite map_rev. now apply in_rev in H.
Qed.

Lemma set_not_nil d k v : set d k v <> [].
Proof.
  destruct d as [|[k' v'] d]; simpl; [discriminate|].
  destruct (String.eqb k' k); discriminate.
Qed.

Lemma update_nil_inv d items : update d items = [] -> d = [] /\ items = [].
Proof.
  unfold update. revert d.
  induction items as [|[k v] items IH]; simpl; intros d H; [now split|].
  apply IH in H. destruct H as [H _]. now apply set_not_nil in H.
Qed.
End More.
End PyDictMore.

Lemma flat_map_partition (A B : Type) (h : A -> list B) (p : A -> bool)
    (l : list A) :
  Permutation (flat_map h l)
    (flat_map h (filter (fun x => negb (p x)) l) ++ flat_map h (filter p l)).
Proof.
  induction l as [|a l IH]; simpl; [constructor|].
  destruct (p a); simpl.
  - eapply Permutation_trans; [apply Permutation_app_head, IH|].
    apply Permutation_app_swap_app.
  - rewrite <- app_assoc. apply Permutation_app_head, IH.
Qed.

Lemma filter_forallb (A : Type) (p : A -> bool) (l : list A) :
  forallb p (filter p l) = true.
Proof.
  induction l as [|a l IH]; simpl; [reflexivity|].
  destruct (p a) eqn:E; simpl; [now rewrite E|exact IH].
Qed.

Lemma filter_all (A : Type) (p : A -> bool) (l : list A) :
  forallb p l = true -> filter p l = l.
Proof.
  induction l as [|a l IH]; simpl; [reflexivity|]. intros H.
  apply andb_true_iff in H. destruct H as [-> H]. now rewrite IH.
Qed.

Lemma filter_none (A : Type) (p : A -> bool) (l : list A) :
  forallb (fun x => negb (p x)) l = true -> filter p l = [].
Proof.
  induction l as [|a l IH]; simpl; [reflexivity|]. intros H.
  apply andb_true_iff in H. destruct H as [Ha H].
  apply negb_true_iff in Ha. rewrite Ha. now apply IH.
Qed.

(** ** The shape of what the transform returns *)

(** With the default flag the transform returns a scalar or a mapping, never
    a sequence: the mapping is what [_flatten_dict] receives. *)
Lemma transform_convert_shape (x : value) :
  is_scalar (_transform x true) = true
  \/ Pandas.is_dict (_transform x true) = true.
Proof.
  remember (weight x) as n eqn:E. revert x E.
  induction n as [n IH] using lt_wf_ind. intros x E.
  destruct x as [s|s|m u|l|d|fs].
  - left. now rewrite transform_scalar.
  - left. now rewrite transform_path.
  - left. now rewrite transform_enum.
  - right. now rewrite transform_list_convert.
  - right. now rewrite transform_dict.
  - rewrite transform_record.
    apply (IH (weight (asdict (VRecord fs)))); [|reflexivity].
    rewrite E. apply weight_asdict_record.
Qed.

(** A record is transformed like the mapping of its fields. *)
Lemma transform_asdict_inner (flag : bool) (x : value) :
  _transform (_asdict_inner x) flag = _transform x flag.
Proof.
  induction x as [s|s|m u|l IH|d IH|fs IH] using value_nested_ind;
    try reflexivity.
  - cbn [_asdict_inner]. rewrite Forall_forall in IH. destruct flag.
    + rewrite !transform_list_convert, length_map. f_equal. f_equal.
      unfold enumerate. rewrite length_map.
      generalize 0. induction l as [|v l IHl]; intros n; [reflexivity|].
      cbn [List.length seq map combine fst snd].
      rewrite (IH v) by now left. f_equal.
      apply IHl. intros x Hx. apply IH. now right.
    + rewrite !transform_list_keep, map_map. f_equal.
      apply map_ext_in. intros v Hv. now apply IH.
  - cbn [_asdict_inner]. rewrite Forall_forall in IH.
    rewrite !transform_dict, map_map. f_equal.
    apply map_ext_in. intros kv Hkv. cbn [fst snd]. f_equal. now apply IH.
  - rewrite (transform_record flag fs). reflexivity.
Qed.

Lemma transform_record_fields (flag : bool) (fs : list (string * value)) :
  _transform (VRecord fs) flag =
    VDict (map (fun kv => (fst kv, _transform (snd kv) flag)) fs).
Proof.
  rewrite transform_record. unfold asdict. cbn [_asdict_inner].
  rewrite transform_dict, map_map. f_equal.
  apply map_ext. intros kv. cbn [fst snd].
  now rewrite transform_asdict_inner.
Qed.

(** ** The transform computes what its rules state *)

Lemma indexed_entries (g : value -> value) (l : list value) :
  map (fun iv => (str_of_nat (fst iv), g (snd iv))) (enumerate l) =
    combine (map str_of_nat (seq 0 (List.length l))) (map g l).
Proof.
  unfold enumerate. generalize 0.
  induction l as [|v l IH]; intros n; [reflexivity|].
  cbn [List.length seq combine map fst snd]. now rewrite IH.
Qed.

Lemma transform_refines (flag : bool) (x : value) :
  _transform x flag = transformed flag x.
Proof.
  induction x as [s|s|m u|l IH|d IH|fs IH] using value_nested_ind.
  - apply transform_scalar.
  - apply transform_path.
  - apply transform_enum.
  - rewrite Forall_forall in IH. destruct flag; cbn [transformed].
    + rewrite transform_list_convert.
      rewrite (indexed_entries (fun v => _transform v true)). do 3 f_equal.
      apply map_ext_in. exact IH.
    + rewrite transform_list_keep. f_equal. apply map_ext_in. exact IH.
  - rewrite transform_dict. cbn [transformed]. f_equal.
    rewrite Forall_forall in IH. apply map_ext_in. intros kv H.
    now rewrite (IH kv H).
  - rewrite transform_record_fields. cbn [transformed]. f_equal.
    rewrite Forall_forall in IH. apply map_ext_in. intros kv H.
    now rewrite (IH kv H).
Qed.

(** ** The transform on trees that need no conversion *)

Lemma transform_scalar_tree (x : value) (flag : bool) :
  scalar_tree x = true -> _transform x flag = x.
Proof.
  induction x as [s|s|m u|l IH|d IH|fs IH] using value_nested_ind;
    simpl; try discriminate.
  - intros _. apply transform_scalar.
  - intros H. rewrite transform_dict. f_equal.
    induction IH as [|[k v] d Hv _ IHd]; [reflexivity|].
    cbn [forallb snd] in H. apply andb_true_iff in H. destruct H as [H1 H2].
    cbn [map fst snd] in *. rewrite (Hv H1), (IHd H2). reflexivity.
Qed.

Lemma leaves_scalar_tree (x : value) :
  scalar_tree x = true ->
  forall p v, In (p, v) (leaves x) -> is_scalar v = true.
Proof.
  induction x as [s|s|m u|l IH|d IH|fs IH] using value_nested_ind;
    simpl; try discriminate.
  - intros _ p v [[= <- <-]|[]]. reflexivity.
  - intros H p v Hin. apply in_flat_map in Hin.
    destruct Hin as [[k x] [Hx Hin]]. apply in_map_iff in Hin.
    destruct Hin as [[p' v'] [[= <- <-] Hin]].
    rewrite Forall_forall in IH. rewrite forallb_forall in H.
    exact (IH _ Hx (H _ Hx) _ _ Hin).
Qed.

Lemma NoDup_app_disjoint (A : Type) (l1 l2 : list A) :
  NoDup (l1 ++ l2) -> forall a, In a l1 -> ~ In a l2.
Proof.
  induction l1 as [|x l1 IH]; simpl; intros ND a; [tauto|].
  inversion ND as [|? ? Hx ND']; subst. intros [->|H] H2.
  - apply Hx, in_or_app. now right.
  - exact (IH ND' a H H2).
Qed.

(** ** What the normalizer returns on nested mappings *)

Module NormalizerFacts.
Import Pandas PandasFacts PathFacts PyDict PyDictFacts PyDictMore.

Lemma top_keys_named_nested (d : dict value) :
  top_keys_named d -> top_keys_named (nested_entries d).
Proof.
  intros K k v H. apply filter_In in H. destruct H as [H _]. now apply K.
Qed.

Lemma normalise_ordered_eq (d : dict value) (sep : string) :
  top_keys_named d ->
  _normalise_json_ordered d sep =
    update (top_entries d) (of_items (joined sep (VDict (nested_entries d)))).
Proof.
  intros K. unfold _normalise_json_ordered, union.
  rewrite normalise_json_update.
  rewrite flat_items_root by now apply top_keys_named_nested.
  reflexivity.
Qed.

Lemma joined_partition (d : dict value) (sep : string) :
  Permutation (joined sep (VDict d))
    (top_entries d ++ joined sep (VDict (nested_entries d))).
Proof.
  rewrite <- (joined_non_dicts sep (top_entries d))
    by apply (filter_forallb (fun kv => negb (is_dict (snd kv)))).
  unfold joined. rewrite <- map_app. apply Permutation_map.
  cbn [leaves]. apply flat_map_partition.
Qed.

Section Outcome.
Variables (d : dict value) (sep : string).
Hypothesis K : top_keys_named d.

Let T := top_entries d.
Let JN := joined sep (VDict (nested_entries d)).
Let M := update T (of_items JN).

Lemma flatten_dict_outcome :
  leaves (VDict d) <> [] -> _flatten_dict d sep = Ok (of_items M).
Proof.
  intros NE. rewrite flatten_dict_eq, normalise_ordered_eq by exact K.
  fold T JN M. destruct M as [|kv M'] eqn:E; [|reflexivity].
  exfalso. apply NE. unfold M in E. apply update_nil_inv in E.
  destruct E as [ET EJ]. apply update_nil_inv in EJ. destruct EJ as [_ EJ].
  pose proof (joined_partition d sep) as P. fold T JN in P.
  rewrite ET, EJ in P. apply Permutation_sym, Permutation_nil in P.
  unfold joined in P. now apply map_eq_nil in P.
Qed.

Lemma row_items_joined (kv : string * value) :
  In kv (of_items M) -> In kv (joined sep (VDict d)).
Proof.
  intros H. apply In_of_items, In_update in H.
  apply (Permutation_in _ (Permutation_sym (joined_partition d sep))).
  apply in_or_app. destruct H as [H|H]; [now left | right].
  now apply In_of_items in H.
Qed.

Lemma row_keys_joined (k : string) :
  In k (keys (joined sep (VDict d))) -> In k (keys (of_items M)).
Proof.
  intros H. apply keys_of_items_In. apply In_keys_update.
  apply (Permutation_in _
           (Permutation_map fst (joined_partition d sep))) in H.
  rewrite map_app in H. apply in_app_or in H.
  destruct H as [H|H]; [now left | right].
  now apply keys_of_items_In.
Qed.

Lemma row_distinct :
  NoDup (keys (joined sep (VDict d))) ->
  of_items M = T ++ JN.
Proof.
  intros ND.
  apply (Permutation_NoDup
           (Permutation_map fst (joined_partition d sep))) in ND.
  fold T JN in ND. rewrite map_app in ND.
  assert (NJ : NoDup (keys JN)) by exact (NoDup_app_remove_l _ _ ND).
  unfold M. rewrite (of_items_NoDup JN) by exact NJ.
  rewrite update_fresh; [| exact NJ |].
  - apply of_items_NoDup. unfold keys. now rewrite map_app.
  - intros k Hk HT. exact (NoDup_app_disjoint _ _ ND k HT Hk).
Qed.
End Outcome.
End NormalizerFacts.

Lemma normalize_dict (d : dict value) :
  scalar_tree (VDict d) = true ->
  normalize (Some (VDict d)) = _flatten_dict d "/".
Proof.
  intros S. unfold _compute_mlflow_params_from_objects,
    _compute_mlflow_params_from_objects_with.
  now rewrite (transform_scalar_tree _ true S).
Qed.

Lemma get_indexed_entry (g : value -> value) (l : list value) (i : nat)
    (v : value) :
  nth_error l i = Some v ->
  PyDict.get (map (fun iv => (str_of_nat (fst iv), g (snd iv))) (enumerate l))
    (str_of_nat i) = Some (g v).
Proof.
  intros H. apply PyDictFacts.NoDup_In_get.
  - apply (index_keys_NoDup (fun iv => g (snd iv))).
  - apply in_map_iff. exists (i, v). split; [reflexivity|].
    apply enumerate_nth_error in H. eapply nth_error_In, H.
Qed.

Lemma transform_list_indexed (l : list value) :
  exists m, _transform (VList l) true = VDict m /\ indexed_mapping l m.
Proof.
  eexists. split; [apply transform_list_convert|].
  split; [|split; [reflexivity|]].
  - unfold PyDict.keys. cbn [map fst]. f_equal. rewrite map_map. cbn [fst].
    rewrite <- (map_map fst str_of_nat). now rewrite enumerate_fst.
  - intros i v H. cbn [PyDict.get].
    destruct (String.eqb_spec "list_len" (str_of_nat i)) as [E|_].
    + exfalso. exact (str_of_nat_not_list_len _ (eq_sym E)).
    + now apply (get_indexed_entry (fun v => _transform v true)).
Qed.

Lemma flat_mapping_scalar_tree (d : dict value) :
  flat_mapping d = true -> scalar_tree (VDict d) = true.
Proof.
  unfold flat_mapping. cbn [scalar_tree]. intros H.
  apply forallb_forall. intros kv Hin.
  rewrite forallb_forall in H. specialize (H kv Hin).
  destruct (snd kv); try discriminate H. reflexivity.
Qed.

Lemma flat_mapping_no_dicts (d : dict value) :
  flat_mapping d = true ->
  forallb (fun kv => negb (Pandas.is_dict (snd kv))) d = true.
Proof.
  unfold flat_mapping. intros H. apply forallb_forall. intros kv Hin.
  rewrite forallb_forall in H. specialize (H kv Hin).
  destruct (snd kv); try discriminate H. reflexivity.
Qed.

Lemma normalise_ordered_flat (d : dict value) (sep : string) :
  flat_mapping d = true -> Pandas._normalise_json_ordered d sep = d.
Proof.
  intros F. apply flat_mapping_no_dicts in F.
  unfold Pandas._normalise_json_ordered.
  rewrite (filter_all _ _ F).
  rewrite (filter_none (fun kv => Pandas.is_dict (snd kv)) _ F).
  reflexivity.
Qed.

(** ** The tracking facade *)

Module TrackingFacts.
Import Tracking TrackingSpec.
Local Open Scope py_scope.

Lemma contains_In (names : list string) (name : string) :
  contains names name = true <-> In name names.
Proof.
  unfold contains. rewrite existsb_exists. split.
  - intros [x [Hx E]]. apply String.eqb_eq in E. now subst.
  - intros H. exists name. split; [exact H | apply String.eqb_refl].
Qed.

Lemma accepted_false (b : string) :
  accepted b = false <-> ~ In b supported_backend /\ b <> "tracking".
Proof.
  unfold accepted. rewrite orb_false_iff, String.eqb_neq.
  rewrite <- (contains_In supported_backend b).
  destruct (contains supported_backend b); intuition congruence.
Qed.

Lemma add_effects_app (st : state) (a b : list event) :
  add_effects (add_effects st a) b = add_effects st (a ++ b).
Proof. unfold add_effects. simpl. now rewrite app_assoc. Qed.

Lemma add_effects_nil (st : state) : add_effects st [] = st.
Proof. destruct st. unfold add_effects. simpl. now rewrite app_nil_r. Qed.

Lemma check_backend_accepted (b : string) (st : state) :
  accepted b = true ->
  check_backend b st = (Ok tt, add_effects st (warnings_of [b])).
Proof.
  unfold accepted, check_backend, warnings_of. cbn [filter].
  destruct (String.eqb b "tracking"); simpl; [reflexivity|].
  intros ->. simpl. unfold ret. now rewrite add_effects_nil.
Qed.

Lemma check_backend_rejected (b : string) (st : state) :
  accepted b = false ->
  check_backend b st = (Raise (AssertionError (b ++ " is not supported")), st).
Proof.
  unfold accepted, check_backend. intros H.
  apply orb_false_iff in H. destruct H as [-> ->]. reflexivity.
Qed.

Lemma warnings_of_app (a b : list string) :
  warnings_of (a ++ b) = warnings_of a ++ warnings_of b.
Proof. unfold warnings_of. now rewrite filter_app, map_app. Qed.

Lemma check_all_accepted (l : list string) :
  forall st, forallb accepted l = true ->
    for_each l check_backend st = (Ok tt, add_effects st (warnings_of l)).
Proof.
  induction l as [|b l IH]; intros st H.
  - simpl. unfold ret. now rewrite add_effects_nil.
  - cbn [forallb] in H. apply andb_true_iff in H. destruct H as [Hb Hl].
    cbn [for_each]. unfold bind.
    rewrite (check_backend_accepted _ st Hb), (IH _ Hl), add_effects_app.
    now rewrite <- warnings_of_app.
Qed.

Lemma check_first_rejected (pre post : list string) (b : string) :
  forall st, forallb accepted pre = true -> accepted b = false ->
    for_each (pre ++ b :: post) check_backend st =
      (Raise (AssertionError (b ++ " is not supported")),
       add_effects st (warnings_of pre)).
Proof.
  induction pre as [|a pre IH]; intros st Hp Hb.
  - cbn [app for_each]. unfold bind.
    rewrite (check_backend_rejected _ st Hb). now rewrite add_effects_nil.
  - cbn [forallb] in Hp. apply andb_true_iff in Hp. destruct Hp as [Ha Hp].
    cbn [app for_each]. unfold bind.
    rewrite (check_backend_accepted _ st Ha), (IH _ Hp Hb), add_effects_app.
    change (a :: pre) with ([a] ++ pre). now rewrite warnings_of_app.
Qed.

Lemma first_rejected (l : list string) :
  forallb accepted l = false ->
  exists pre b post,
    l = pre ++ b :: post /\ forallb accepted pre = true /\ accepted b = false.
Proof.
  induction l as [|a l IH]; [discriminate|]. cbn [forallb].
  destruct (accepted a) eqn:Ha.
  - simpl. intros H. destruct (IH H) as [pre [b [post [E [Hp Hb]]]]].
    exists (a :: pre), b, post. subst l. repeat split; auto.
    cbn [forallb]. now rewrite Ha.
  - intros _. exists [], a, l. repeat split; auto.
Qed.

Lemma warnings_only (l : list string) :
  Forall (fun e => e = deprecation_warning) (warnings_of l).
Proof.
  unfold warnings_of. apply Forall_forall. intros e H.
  apply in_map_iff in H. now destruct H as [_ [<- _]].
Qed.

Lemma warnings_count (l : list string) :
  List.length (warnings_of l) = count_occ string_dec l "tracking".
Proof.
  unfold warnings_of. rewrite length_map.
  induction l as [|b l IH]; [reflexivity|].
  cbn [filter count_occ].
  destruct (String.eqb_spec b "tracking") as [E|E];
    destruct (string_dec b "tracking") as [E'|E']; try contradiction;
    cbn [List.length]; now rewrite IH.
Qed.

End TrackingFacts.

Module TrackingOutcome.
Import Tracking TrackingSpec TrackingFacts.
Local Open Scope py_scope.

Lemma init_split (project_name experiment_name : string)
    (arg : backend_arg) (config : option value) :
  __init__ project_name experiment_name arg config =
    (for_each (backend_names arg) check_backend ;;
     initialize project_name experiment_name (backend_names arg) config).
Proof. destruct arg; reflexivity. Qed.

Ltac run :=
  unfold initialize, bind, when, new_logger, getenv, emit, lift,
    logger_setitem, set_console_logger, ret, add_effects;
  cbn [logger console_logger effects environ fst snd].

Ltac reduce :=
  cbn [fresh add_effects logger console_logger effects environ fst snd
       contains existsb orb String.eqb Ascii.eqb Bool.eqb PyDict.set
       warnings_of filter map app].

(** Every key [initialize] stores is a supported name. *)
Lemma initialize_keys (project_name experiment_name : string)
    (names : list string) (config : option value) (st st' : state)
    (r : result unit) :
  initialize project_name experiment_name names config st = (r, st') ->
  forall reg, logger st' = Some reg ->
    forall k, In k (PyDict.keys reg) -> In k supported_backend.
Proof.
  run.
  destruct (contains names "wandb" || contains names "tracking");
    destruct (contains names "mlflow");
    destruct (contains names "console");
    cbn beta iota zeta;
    cbn [logger console_logger effects environ fst snd];
    try destruct (truthy (PyDict.get (environ st) "WANDB_API_KEY"));
    cbn beta iota zeta;
    cbn [logger console_logger effects environ fst snd];
    try destruct (_compute_mlflow_params_from_objects config);
    cbn beta iota zeta;
    cbn [logger console_logger effects environ fst snd];
    intros [= <- <-] reg; cbn [logger]; intros [= <-] k;
    simpl; tauto.
Qed.

(** A facade whose construction succeeded has its registry assigned. *)
Lemma constructed_has_registry (project_name experiment_name : string)
    (arg : backend_arg) (config : option value) (env : dict string)
    (st' : state) :
  __init__ project_name experiment_name arg config (fresh env) = (Ok tt, st') ->
  exists reg, logger st' = Some reg.
Proof.
  rewrite init_split. unfold bind at 1.
  destruct (for_each (backend_names arg) check_backend (fresh env))
    as [[[]|e] st0]; [|discriminate].
  run.
  destruct (contains (backend_names arg) "wandb"
            || contains (backend_names arg) "tracking");
    destruct (contains (backend_names arg) "mlflow");
    destruct (contains (backend_names arg) "console");
    cbn beta iota zeta;
    cbn [logger console_logger effects environ fst snd];
    try destruct (truthy (PyDict.get (environ st0) "WANDB_API_KEY"));
    cbn beta iota zeta;
    cbn [logger console_logger effects environ fst snd];
    try destruct (_compute_mlflow_params_from_objects config);
    cbn beta iota zeta;
    cbn [logger console_logger effects environ fst snd];
    intros [= <-]; cbn [logger]; eexists; reflexivity.
Qed.

End TrackingOutcome.

(** ** [log] *)

Module LogFacts.
Import Tracking TrackingSpec TrackingFacts.
Local Open Scope py_scope.

Lemma handle_log_effect (h : handle) (data : dict value) (step : Z)
    (st : state) :
  handle_log h data step st =
    (Ok tt, add_effects st [native_call h data step]).
Proof. destruct h; reflexivity. Qed.

Lemma log_loop (data : dict value) (step : Z) (backend : option (list string))
    (items : dict handle) :
  forall st,
    for_each items (fun item =>
      when (match backend with
            | None => true
            | Some names => contains names (fst item)
            end)
        (handle_log (snd item) data step)) st
    = (Ok tt, add_effects st (forwarded items data step backend)).
Proof.
  induction items as [|[name h] items IH]; intros st.
  - simpl. unfold ret. now rewrite add_effects_nil.
  - cbn [for_each]. unfold bind, forwarded. cbn [filter fst snd].
    fold (admitted backend name).
    destruct (admitted backend name); cbn [when map snd].
    + rewrite handle_log_effect, IH, add_effects_app. reflexivity.
    + unfold ret. now rewrite IH.
Qed.

Lemma log_effect (st : state) (reg : dict handle) (data : dict value)
    (step : Z) (backend : option (list string)) :
  logger st = Some reg ->
  log data step backend st =
    (Ok tt, add_effects st (forwarded reg data step backend)).
Proof.
  intros H. unfold log, bind, get_logger. rewrite H. apply log_loop.
Qed.
End LogFacts.

(** * Part IV: the properties of the specification *)

(** C1 (amended).  For every configuration made of nested mappings with
    scalar leaves that has at least one leaf and in which no top-level key
    holding a mapping is the empty string, the normalizer returns a flat
    mapping whose keys are exactly the slash-joined key paths of the leaves:
    every entry holds a scalar that is a leaf reached by the path its key
    joins, every leaf's joined path is a key, and when the joined paths are
    pairwise different each leaf is stored under its own path.  In particular
    normalize({"a": {"b": 1}}) is {"a/b": 1}. *)
Theorem normalize_keys_are_joined_paths :
  (forall d : dict value,
     scalar_tree (VDict d) = true ->
     top_keys_named d ->
     leaves (VDict d) <> [] ->
     exists m,
       normalize (Some (VDict d)) = Ok m /\ keyed_by_joined_paths d m)
  /\ normalize (Some (VDict [("a", VDict [("b", VInt 1)])]))
     = Ok [("a/b", VInt 1)].
Proof.
  split; [|reflexivity].
  intros d S K NE.
  set (M := PyDict.update (top_entries d)
              (PyDict.of_items
                 (joined "/"
                    (VDict (nested_entries d))))).
  exists (PyDict.of_items M).
  split; [|split; [|split; [|split]]].
  - rewrite (normalize_dict _ S).
    now apply NormalizerFacts.flatten_dict_outcome.
  - apply PyDictFacts.NoDup_keys_of_items.
  - intros k v H. apply NormalizerFacts.row_items_joined in H.
    unfold joined in H. apply in_map_iff in H.
    destruct H as [[p v'] [[= <- <-] H]]. split.
    + exact (leaves_scalar_tree _ S _ _ H).
    + now exists p.
  - intros p v H. apply NormalizerFacts.row_keys_joined.
    unfold PyDict.keys, joined. rewrite map_map.
    apply in_map_iff. now exists (p, v).
  - intros ND p v H.
    assert (ND' : NoDup (PyDict.keys (joined "/" (VDict d)))).
    { unfold PyDict.keys, joined. now rewrite map_map. }
    pose proof (NormalizerFacts.row_distinct d "/" ND') as E. fold M in E.
    apply PyDictFacts.NoDup_In_get.
    + apply PyDictFacts.NoDup_keys_of_items.
    + rewrite E.
      apply (Permutation_in _ (NormalizerFacts.joined_partition d "/")).
      unfold joined. apply in_map_iff. now exists (p, v).
Qed.

Lemma normalize_keys_are_joined_paths_witness :
  scalar_tree (VDict model_config) = true
  /\ top_keys_named model_config
  /\ leaves (VDict model_config) <> []
  /\ exists m,
       normalize (Some (VDict model_config)) = Ok m
       /\ keyed_by_joined_paths model_config m.
Proof.
  assert (H1 : scalar_tree (VDict model_config) = true) by reflexivity.
  assert (H2 : top_keys_named model_config).
  { intros k v [[= <- <-]|[[= <- <-]|[]]] _; discriminate. }
  assert (H3 : leaves (VDict model_config) <> []) by discriminate.
  repeat split; try assumption.
  exact (proj1 normalize_keys_are_joined_paths model_config H1 H2 H3).
Defined.

(** C1, as stated, fails on the code in two ways: below an empty top-level
    key the column name is built without the separator, so the leaf of
    {"": {"b": 1}} is stored under "b" although its keys join to "/b"; and a
    configuration without any leaf makes the normalizer raise instead of
    producing a mapping. *)
Lemma normalize_keys_are_joined_paths_counterexample :
  scalar_tree (VDict [("", VDict [("b", VInt 1)])]) = true
  /\ leaves (VDict [("", VDict [("b", VInt 1)])]) = [ ([""; "b"], VInt 1) ]
  /\ slash_join [""; "b"] = "/b"
  /\ normalize (Some (VDict [("", VDict [("b", VInt 1)])]))
     = Ok [("b", VInt 1)]
  /\ scalar_tree (VDict []) = true
  /\ normalize (Some (VDict [])) = Raise IndexError.
Proof. repeat split. Qed.

(** C2.  With the default flag every sequence becomes a mapping that holds
    the length under list_len and, under each stringified index, the
    transform of the element at that index, and nothing else; so
    normalize({"items": [10, 20]}) is
    {"items/list_len": 2, "items/0": 10, "items/1": 20} and
    normalize({"items": []}) is {"items/list_len": 0}. *)
Theorem sequence_becomes_indexed_mapping :
  (forall l : list value,
     exists m, _transform (VList l) true = VDict m /\ indexed_mapping l m)
  /\ normalize (Some (VDict [("items", VList [VInt 10; VInt 20])]))
     = Ok [("items/list_len", VInt 2); ("items/0", VInt 10);
           ("items/1", VInt 20)]
  /\ normalize (Some (VDict [("items", VList [])]))
     = Ok [("items/list_len", VInt 0)].
Proof.
  split; [exact transform_list_indexed|]. split; reflexivity.
Qed.

(** C3.  When the requested names include one that is neither supported nor
    the alias "tracking", construction raises the assertion for the first
    such name.  Nothing has been initialized by then: the only calls made are
    the deprecation warnings for the aliases met before it, and [self.logger]
    has not been assigned, so the registry holds no handle. *)
Theorem unsupported_backend_fails_before_initialization :
  forall (project_name experiment_name : string) (arg : Tracking.backend_arg)
         (config : option value) (env : dict string),
    (exists b, In b (TrackingSpec.backend_names arg)
               /\ ~ In b Tracking.supported_backend /\ b <> "tracking") ->
    exists b st',
      In b (TrackingSpec.backend_names arg)
      /\ ~ In b Tracking.supported_backend /\ b <> "tracking"
      /\ Tracking.__init__ project_name experiment_name arg config
           (Tracking.fresh env)
         = (Raise (AssertionError (b ++ " is not supported")), st')
      /\ Tracking.logger st' = None
      /\ Tracking.console_logger st' = None
      /\ Forall (fun e => e = TrackingSpec.deprecation_warning)
           (Tracking.effects st').
Proof.
  intros project_name experiment_name arg config env [b0 [Hin [Hs Ht]]].
  assert (F : forallb TrackingSpec.accepted (TrackingSpec.backend_names arg)
              = false).
  { destruct (forallb _ _) eqn:E; [|reflexivity].
    rewrite forallb_forall in E. specialize (E _ Hin).
    assert (TrackingSpec.accepted b0 = false)
      by (apply TrackingFacts.accepted_false; now split).
    congruence. }
  destruct (TrackingFacts.first_rejected _ F) as [pre [b [post [E [Hp Hb]]]]].
  exists b, (Tracking.add_effects (Tracking.fresh env)
               (TrackingSpec.warnings_of pre)).
  pose proof (proj1 (TrackingFacts.accepted_false b) Hb) as [Hb1 Hb2].
  split; [rewrite E; apply in_or_app; right; now left|].
  split; [exact Hb1|]. split; [exact Hb2|]. split.
  - rewrite TrackingOutcome.init_split, E. unfold Tracking.bind at 1.
    now rewrite (@TrackingFacts.check_first_rejected pre post b _ Hp Hb).
  - split; [reflexivity|]. split; [reflexivity|].
    apply TrackingFacts.warnings_only.
Qed.

Lemma unsupported_backend_fails_before_initialization_witness :
  (exists b, In b (TrackingSpec.backend_names
                     (Tracking.Names ["tracking"; "wandb"; "tensorboard"]))
             /\ ~ In b Tracking.supported_backend /\ b <> "tracking")
  /\ exists b st',
       In b (TrackingSpec.backend_names
               (Tracking.Names ["tracking"; "wandb"; "tensorboard"]))
       /\ ~ In b Tracking.supported_backend /\ b <> "tracking"
       /\ Tracking.__init__ "proj" "exp"
            (Tracking.Names ["tracking"; "wandb"; "tensorboard"]) None
            (Tracking.fresh [])
          = (Raise (AssertionError (b ++ " is not supported")), st')
       /\ Tracking.logger st' = None
       /\ Tracking.console_logger st' = None
       /\ Forall (fun e => e = TrackingSpec.deprecation_warning)
            (Tracking.effects st').
Proof.
  assert (H : exists b,
             In b (TrackingSpec.backend_names
                     (Tracking.Names ["tracking"; "wandb"; "tensorboard"]))
             /\ ~ In b Tracking.supported_backend /\ b <> "tracking").
  { exists "tensorboard". simpl. intuition discriminate. }
  split; [exact H|].
  exact (unsupported_backend_fails_before_initialization
           "proj" "exp" (Tracking.Names ["tracking"; "wandb"; "tensorboard"])
           None [] H).
Defined.

(** C4.  Constructing the facade with only one supported backend name
    yields a registry that holds exactly that backend, with the handle of its
    kind, wherever the initialization of the backend returns: always for
    wandb and console, and for mlflow whenever the normalizer returns a
    mapping for the configuration (as it does when none is given).  With only
    the alias "tracking" the registry holds exactly the wandb backend and the
    first call made is the deprecation warning.  Whatever names are requested
    and however construction ends, every key of the registry is one of wandb,
    mlflow and console.  Where the normalizer raises, the property fails for
    mlflow: the error leaves the constructor and the registry is left empty;
    the normalizer raises on the empty configuration {}. *)
Theorem single_backend_registry :
  (forall (project_name experiment_name : string) (env : dict string)
          (config : option value) (name : string) (arg : Tracking.backend_arg),
     In name Tracking.supported_backend ->
     TrackingSpec.only name arg ->
     (name = "mlflow" -> exists m, normalize config = Ok m) ->
     exists st',
       Tracking.__init__ project_name experiment_name arg config
         (Tracking.fresh env) = (Ok tt, st')
       /\ Tracking.logger st' = Some [(name, InitSpec.handle_of name)])
  /\ (forall (project_name experiment_name : string) (env : dict string)
             (config : option value) (arg : Tracking.backend_arg),
        TrackingSpec.only "tracking" arg ->
        exists st',
          Tracking.__init__ project_name experiment_name arg config
            (Tracking.fresh env) = (Ok tt, st')
          /\ Tracking.logger st' = Some [("wandb", Tracking.Wandb)]
          /\ Tracking.effects st' =
               TrackingSpec.deprecation_warning
               :: InitSpec.wandb_calls env project_name experiment_name config)
  /\ (forall (project_name experiment_name : string) (env : dict string)
             (config : option value) (arg : Tracking.backend_arg)
             (r : result unit) (st' : Tracking.state) (reg : dict Tracking.handle),
        Tracking.__init__ project_name experiment_name arg config
          (Tracking.fresh env) = (r, st') ->
        Tracking.logger st' = Some reg ->
        forall k, In k (PyDict.keys reg) -> In k Tracking.supported_backend)
  /\ (forall (project_name experiment_name : string) (env : dict string)
             (config : option value) (arg : Tracking.backend_arg) (e : exn),
        TrackingSpec.only "mlflow" arg ->
        normalize config = Raise e ->
        exists st',
          Tracking.__init__ project_name experiment_name arg config
            (Tracking.fresh env) = (Raise e, st')
          /\ Tracking.logger st' = Some [])
  /\ normalize (Some (VDict [])) = Raise IndexError.
Proof.
  split; [|split; [|split; [|split]]].
  - intros project_name experiment_name env config name arg Hin Hower Hm.
    assert (E : TrackingSpec.backend_names arg = [name])
      by (destruct Hower as [-> | ->]; reflexivity).
    rewrite TrackingOutcome.init_split, E. unfold Tracking.bind at 1.
    destruct Hin as [<-|[<-|[<-|[]]]];
      rewrite TrackingFacts.check_all_accepted by reflexivity;
      TrackingOutcome.run; TrackingOutcome.reduce.
    + destruct (Tracking.truthy (PyDict.get env "WANDB_API_KEY"));
        TrackingOutcome.reduce; eexists; split; reflexivity.
    + destruct (Hm eq_refl) as [m Em]. rewrite Em. TrackingOutcome.reduce.
      eexists; split; reflexivity.
    + eexists; split; reflexivity.
  - intros project_name experiment_name env config arg Hower.
    assert (E : TrackingSpec.backend_names arg = ["tracking"])
      by (destruct Hower as [-> | ->]; reflexivity).
    rewrite TrackingOutcome.init_split, E. unfold Tracking.bind at 1.
    rewrite TrackingFacts.check_all_accepted by reflexivity.
    TrackingOutcome.run. TrackingOutcome.reduce.
    unfold InitSpec.wandb_calls.
    destruct (Tracking.truthy (PyDict.get env "WANDB_API_KEY"));
      TrackingOutcome.reduce;
      eexists; (split; [reflexivity|]); split; reflexivity.
  - intros project_name experiment_name env config arg r st' reg H.
    rewrite TrackingOutcome.init_split in H. unfold Tracking.bind at 1 in H.
    destruct (forallb TrackingSpec.accepted (TrackingSpec.backend_names arg))
      eqn:F.
    + rewrite (TrackingFacts.check_all_accepted _ _ F) in H.
      exact (@TrackingOutcome.initialize_keys _ _ _ _ _ _ _ H reg).
    + destruct (TrackingFacts.first_rejected _ F)
        as [pre [b [post [E [Hp Hb]]]]].
      rewrite E in H.
      rewrite (@TrackingFacts.check_first_rejected pre post b _ Hp Hb) in H.
      injection H as _ <-. discriminate.
  - intros project_name experiment_name env config arg e Hower He.
    assert (E : TrackingSpec.backend_names arg = ["mlflow"])
      by (destruct Hower as [-> | ->]; reflexivity).
    rewrite TrackingOutcome.init_split, E. unfold Tracking.bind at 1.
    rewrite TrackingFacts.check_all_accepted by reflexivity.
    TrackingOutcome.run. TrackingOutcome.reduce.
    rewrite He. TrackingOutcome.reduce.
    eexists; split; reflexivity.
  - reflexivity.
Qed.

Lemma single_backend_registry_witness :
  (In "mlflow" Tracking.supported_backend
   /\ TrackingSpec.only "mlflow" (Tracking.Name "mlflow")
   /\ ("mlflow" = "mlflow" -> exists m, normalize None = Ok m)
   /\ exists st',
        Tracking.__init__ "proj" "exp" (Tracking.Name "mlflow") None
          (Tracking.fresh []) = (Ok tt, st')
        /\ Tracking.logger st'
           = Some [("mlflow", Tracking.MlflowLoggingAdapter)])
  /\ (TrackingSpec.only "tracking" (Tracking.Names ["tracking"])
      /\ exists st',
           Tracking.__init__ "proj" "exp" (Tracking.Names ["tracking"]) None
             (Tracking.fresh []) = (Ok tt, st')
           /\ Tracking.logger st' = Some [("wandb", Tracking.Wandb)]
           /\ Tracking.effects st' =
                [TrackingSpec.deprecation_warning;
                 Tracking.WandbInit None "proj" "exp" None])
  /\ (Tracking.__init__ "proj" "exp" (Tracking.Name "mlflow")
        (Some (VDict [])) (Tracking.fresh [])
      = (Raise IndexError, empty_config_state)
      /\ Tracking.logger empty_config_state = Some []
      /\ forall k, In k (PyDict.keys (@nil (string * Tracking.handle))) ->
           In k Tracking.supported_backend)
  /\ (TrackingSpec.only "mlflow" (Tracking.Name "mlflow")
      /\ normalize (Some (VDict [])) = Raise IndexError
      /\ exists st',
           Tracking.__init__ "proj" "exp" (Tracking.Name "mlflow")
             (Some (VDict [])) (Tracking.fresh []) = (Raise IndexError, st')
           /\ Tracking.logger st' = Some []).
Proof.
  assert (H1 : In "mlflow" Tracking.supported_backend) by (simpl; tauto).
  assert (H2 : TrackingSpec.only "mlflow" (Tracking.Name "mlflow"))
    by (now left).
  assert (H3 : "mlflow" = "mlflow" -> exists m, normalize None = Ok m)
    by (intros _; now exists []).
  assert (H4 : TrackingSpec.only "tracking" (Tracking.Names ["tracking"]))
    by (now right).
  assert (H5 : Tracking.__init__ "proj" "exp" (Tracking.Name "mlflow")
                 (Some (VDict [])) (Tracking.fresh [])
               = (Raise IndexError, empty_config_state)) by reflexivity.
  assert (H6 : Tracking.logger empty_config_state = Some []) by reflexivity.
  assert (H7 : normalize (Some (VDict [])) = Raise IndexError) by reflexivity.
  split; [|split; [|split]].
  - split; [exact H1|]. split; [exact H2|]. split; [exact H3|].
    exact (proj1 single_backend_registry "proj" "exp" [] None "mlflow"
             (Tracking.Name "mlflow") H1 H2 H3).
  - split; [exact H4|].
    exact (proj1 (proj2 single_backend_registry) "proj" "exp" [] None
             (Tracking.Names ["tracking"]) H4).
  - split; [exact H5|]. split; [exact H6|].
    exact (proj1 (proj2 (proj2 single_backend_registry)) "proj" "exp" []
             (Some (VDict [])) (Tracking.Name "mlflow") (Raise IndexError)
             empty_config_state [] H5 H6).
  - split; [exact H2|]. split; [exact H7|].
    exact (proj1 (proj2 (proj2 (proj2 single_backend_registry))) "proj" "exp"
             [] (Some (VDict [])) (Tracking.Name "mlflow") IndexError H2 H7).
Defined.

(** C5.  On a facade whose registry is [reg], [log(data, step, backend)]
    succeeds and the calls it makes are exactly the native log calls, with
    [data] and [step], of the registry entries whose name the selector admits,
    one per entry in registry order: every entry when the selector is unset,
    the entries named in it otherwise.  No other call is made, so a backend
    that an explicit selector does not name is not invoked. *)
Theorem log_forwards_to_selected_backends :
  forall (st : Tracking.state) (reg : dict Tracking.handle)
         (data : dict value) (step : Z) (backend : option (list string)),
    Tracking.logger st = Some reg ->
    exists st',
      Tracking.log data step backend st = (Ok tt, st')
      /\ Tracking.logger st' = Some reg
      /\ Tracking.effects st' =
           Tracking.effects st ++ TrackingSpec.forwarded reg data step backend
      /\ (forall e, In e (TrackingSpec.forwarded reg data step backend) <->
            exists name h,
              In (name, h) reg
              /\ match backend with
                 | None => True
                 | Some names => In name names
                 end
              /\ e = TrackingSpec.native_call h data step)
      /\ (backend = None ->
          TrackingSpec.forwarded reg data step backend =
            map (fun item => TrackingSpec.native_call (snd item) data step) reg).
Proof.
  intros st reg data step backend H.
  exists (Tracking.add_effects st (TrackingSpec.forwarded reg data step backend)).
  split; [now apply LogFacts.log_effect|].
  split; [exact H|]. split; [reflexivity|]. split.
  - intros e. unfold TrackingSpec.forwarded. rewrite in_map_iff. split.
    + intros [[name h] [<- Hin]]. apply filter_In in Hin.
      destruct Hin as [Hin Ha]. exists name, h. split; [exact Hin|].
      split; [|reflexivity]. destruct backend as [names|]; [|exact I].
      now apply TrackingFacts.contains_In.
    + intros [name [h [Hin [Ha ->]]]]. exists (name, h).
      split; [reflexivity|]. apply filter_In. split; [exact Hin|].
      destruct backend as [names|]; [|reflexivity].
      now apply TrackingFacts.contains_In.
  - intros ->. unfold TrackingSpec.forwarded. f_equal. clear H.
    induction reg as [|item reg IH]; [reflexivity|].
    cbn [filter TrackingSpec.admitted]. now f_equal.
Qed.

Lemma log_forwards_to_selected_backends_witness :
  Tracking.logger two_backend_facade
  = Some [("wandb", Tracking.Wandb); ("console", Tracking.LocalLogger true)]
  /\ exists st',
       Tracking.log [("loss", VInt 2)] 5 (Some ["console"]) two_backend_facade
       = (Ok tt, st')
       /\ Tracking.effects st' =
            Tracking.effects two_backend_facade
            ++ [Tracking.LocalLoggerLog [("loss", VInt 2)] 5].
Proof.
  assert (H : Tracking.logger two_backend_facade
              = Some [("wandb", Tracking.Wandb);
                      ("console", Tracking.LocalLogger true)]) by reflexivity.
  split; [exact H|].
  destruct (log_forwards_to_selected_backends two_backend_facade
              [("loss", VInt 2)] 5 (Some ["console"]) H)
    as [st' [E [_ [F _]]]].
  exists st'. split; [exact E | exact F].
Defined.

(** C6.  Without a configuration the normalizer returns the empty mapping,
    and it does so whatever the tabular normalization would compute: the
    flattening step is not consulted. *)
Theorem normalize_none_is_empty :
  normalize None = Ok []
  /\ forall tabulate : dict value -> string -> list (dict value),
       _compute_mlflow_params_from_objects_with tabulate None = Ok [].
Proof. split; reflexivity. Qed.

(** C7.  Whatever the flag, a path becomes its string form, an enumeration
    member its underlying value, and every other scalar is returned
    unchanged; a path under key "p" therefore normalizes to {"p": string
    form} and an enumeration member under key "e" to {"e": underlying
    value}. *)
Theorem leaves_are_made_serializable :
  forall flag : bool,
    (forall s, _transform (VPath s) flag = VStr s)
    /\ (forall member u, _transform (VEnum member u) flag = VScalar u)
    /\ (forall s, _transform (VScalar s) flag = VScalar s)
    /\ (forall s, normalize (Some (VDict [("p", VPath s)])) = Ok [("p", VStr s)])
    /\ (forall member u,
          normalize (Some (VDict [("e", VEnum member u)]))
          = Ok [("e", VScalar u)]).
Proof.
  intros flag.
  split; [intros s; apply transform_path|].
  split; [intros member u; apply transform_enum|].
  split; [intros s; apply transform_scalar|].
  split; intros; reflexivity.
Qed.

(** C8.  With convert_list_to_dict false a sequence stays a sequence of the
    same length whose element at each index is the original element
    recursively transformed under the same flag: paths, enumeration members,
    mappings, records and sequences inside it are converted as the rules of
    the transform state ([transformed]), so that a sequence holding a path
    and a mapping with a path comes back as the sequence of the string and of
    the mapping with the string.  With the flag true the sequence becomes the
    indexed mapping with list_len, its elements transformed in the same
    way. *)
Theorem list_flag_selects_shape :
  forall l : list value,
    (exists l',
       _transform (VList l) false = VList l'
       /\ List.length l' = List.length l
       /\ forall i v, nth_error l i = Some v ->
            nth_error l' i = Some (_transform v false)
            /\ nth_error l' i = Some (transformed false v))
    /\ (exists m,
          _transform (VList l) true = VDict m
          /\ indexed_mapping l m
          /\ forall i v, nth_error l i = Some v ->
               PyDict.get m (str_of_nat i) = Some (transformed true v))
    /\ (forall p q : string,
          _transform (VList [VPath p; VDict [("p", VPath q)]]) false
          = VList [VStr p; VDict [("p", VStr q)]]).
Proof.
  intros l. split; [|split].
  - exists (map (fun v => _transform v false) l). split; [|split].
    + apply transform_list_keep.
    + apply length_map.
    + intros i v H. rewrite nth_error_map, H. cbn [option_map].
      split; [reflexivity|]. now rewrite transform_refines.
  - destruct (transform_list_indexed l) as [m [E I]].
    exists m. split; [exact E|]. split; [exact I|].
    intros i v H. destruct I as [_ [_ I]].
    rewrite (I i v H). now rewrite transform_refines.
  - intros p q. rewrite transform_refines. reflexivity.
Qed.

(** The flat-mapping property where it holds: every non-empty mapping that
    is already flat (one level deep, scalar leaves, the keys of a mapping
    being pairwise different) is returned unchanged. *)
Lemma normalize_nonempty_flat_mapping (d : dict value) :
  flat_mapping d = true ->
  NoDup (PyDict.keys d) ->
  d <> [] ->
  normalize (Some (VDict d)) = Ok d.
Proof.
  intros F ND NE.
  rewrite (normalize_dict _ (flat_mapping_scalar_tree _ F)).
  rewrite flatten_dict_eq, normalise_ordered_flat by exact F.
  destruct d as [|kv d]; [contradiction|].
  now rewrite PyDictFacts.of_items_NoDup by exact ND.
Qed.

(** C9.  The empty mapping is flat, yet the normalizer does not return it:
    the table made of it has no column, hence no record, and taking the
    first record raises an out-of-range error.  Every other flat mapping is
    returned unchanged. *)
Theorem normalize_flat_mapping :
  flat_mapping [] = true
  /\ normalize (Some (VDict [])) = Raise IndexError
  /\ forall d : dict value,
       flat_mapping d = true ->
       NoDup (PyDict.keys d) ->
       d <> [] ->
       normalize (Some (VDict d)) = Ok d.
Proof.
  split; [reflexivity|]. split; [reflexivity|].
  exact normalize_nonempty_flat_mapping.
Qed.

Lemma normalize_flat_mapping_witness :
  flat_mapping flat_config = true
  /\ NoDup (PyDict.keys flat_config)
  /\ flat_config <> []
  /\ normalize (Some (VDict flat_config)) = Ok flat_config.
Proof.
  assert (H1 : flat_mapping flat_config = true) by reflexivity.
  assert (H2 : NoDup (PyDict.keys flat_config)).
  { repeat constructor; simpl; intuition discriminate. }
  assert (H3 : flat_config <> []) by discriminate.
  split; [exact H1|]. split; [exact H2|]. split; [exact H3|].
  exact (proj2 (proj2 normalize_flat_mapping) flat_config H1 H2 H3).
Defined.

(** C10.  On the empty mapping the tabular normalization yields no record,
    so taking the first one raises an out-of-range error and the normalizer
    fails; without a configuration it returns the empty mapping. *)
Theorem normalize_empty_mapping_raises :
  json_normalize_records [] "/" = []
  /\ _flatten_dict [] "/" = Raise IndexError
  /\ normalize (Some (VDict [])) = Raise IndexError
  /\ normalize None = Ok [].
Proof. repeat split. Qed.

(** * Part V: further properties of the code *)

(** ** Vocabulary *)

(** Objects that are neither a sequence, a mapping nor a dataclass
    instance. *)
Definition is_atom (x : value) : bool :=
  match x with
  | VScalar _ | VPath _ | VEnum _ _ => true
  | _ => false
  end.

(** ** Lists and the shape of the converted object *)

Lemma forallb_map (A B : Type) (p : B -> bool) (g : A -> B) (l : list A) :
  forallb p (map g l) = forallb (fun a => p (g a)) l.
Proof. induction l as [|a l IH]; simpl; [reflexivity|]. now rewrite IH. Qed.

Lemma forallb_Forall (A : Type) (p : A -> bool) (l : list A) :
  Forall (fun a => p a = true) l -> forallb p l = true.
Proof. intros H. apply forallb_forall. now rewrite Forall_forall in H. Qed.

Lemma transform_convert_scalar_tree (x : value) :
  scalar_tree (_transform x true) = true.
Proof.
  induction x as [s|s|m u|l IH|d IH|fs IH] using value_nested_ind.
  - now rewrite transform_scalar.
  - now rewrite transform_path.
  - now rewrite transform_enum.
  - rewrite transform_list_convert. cbn [scalar_tree forallb snd].
    rewrite forallb_map. cbn [snd]. apply forallb_forall.
    intros iv Hin. apply in_enumerate_r in Hin.
    rewrite Forall_forall in IH. now apply IH.
  - rewrite transform_dict. cbn [scalar_tree]. rewrite forallb_map. cbn [snd].
    now apply forallb_Forall.
  - rewrite transform_record_fields. cbn [scalar_tree].
    rewrite forallb_map. cbn [snd]. now apply forallb_Forall.
Qed.

(** ** The transform on arbitrary objects *)

(** The transform accepts any object.  This module embeds it, with
    [dataclasses.asdict], on a type of objects larger than the configuration
    objects of [value]: an [obj] may also be a tuple (a named tuple
    included), an enumeration member whose value is any object, or an object
    on which none of the tests of the transform holds ([OOther]: a set, a
    pure path, a number of another library, ...; [copy.deepcopy] returns it
    equal).  The constructor of an object is the first test of the transform
    that holds of it.  The definitions follow the same source lines as those
    of Part I. *)
Module Objects.

Inductive obj : Type :=
| OScalar (s : scalar)
| OPath (str_form : string)
| OEnum (member : string) (underlying : obj)
| OList (l : list obj)
| OTuple (l : list obj)
| ODict (d : list (string * obj))
| ORecord (fields : list (string * obj))
| OOther (repr : string).

Section ObjInd.
Variable P : obj -> Prop.
Hypothesis Hscalar : forall s, P (OScalar s).
Hypothesis Hpath : forall s, P (OPath s).
Hypothesis Henum : forall m u, P u -> P (OEnum m u).
Hypothesis Hlist : forall l, Forall P l -> P (OList l).
Hypothesis Htuple : forall l, Forall P l -> P (OTuple l).
Hypothesis Hdict : forall d, Forall (fun kv => P (snd kv)) d -> P (ODict d).
Hypothesis Hrecord :
  forall fs, Forall (fun kv => P (snd kv)) fs -> P (ORecord fs).
Hypothesis Hother : forall r, P (OOther r).

Fixpoint obj_nested_ind (x : obj) : P x :=
  match x with
  | OScalar s => Hscalar s
  | OPath s => Hpath s
  | OEnum m u => Henum m (obj_nested_ind u)
  | OList l =>
      Hlist ((fix go (l : list obj) : Forall P l :=
                match l with
                | [] => Forall_nil _
                | v :: r => Forall_cons _ (obj_nested_ind v) (go r)
                end) l)
  | OTuple l =>
      Htuple ((fix go (l : list obj) : Forall P l :=
                 match l with
                 | [] => Forall_nil _
                 | v :: r => Forall_cons _ (obj_nested_ind v) (go r)
                 end) l)
  | ODict d =>
      Hdict ((fix go (d : list (string * obj))
                : Forall (fun kv => P (snd kv)) d :=
                match d with
                | [] => Forall_nil _
                | kv :: r => Forall_cons _ (obj_nested_ind (snd kv)) (go r)
                end) d)
  | ORecord fs =>
      Hrecord ((fix go (d : list (string * obj))
                  : Forall (fun kv => P (snd kv)) d :=
                  match d with
                  | [] => Forall_nil _
                  | kv :: r => Forall_cons _ (obj_nested_ind (snd kv)) (go r)
                  end) fs)
  | OOther r => Hother r
  end.
End ObjInd.

(** [dataclasses._asdict_inner]: a dataclass instance becomes the dictionary
    of its converted fields; lists, tuples and dictionaries are rebuilt from
    their converted elements; anything else is deep-copied. *)
Fixpoint _asdict_inner (o : obj) : obj :=
  match o with
  | ORecord fs => ODict (map (fun kv => (fst kv, _asdict_inner (snd kv))) fs)
  | OList l => OList (map _asdict_inner l)
  | OTuple l => OTuple (map _asdict_inner l)
  | ODict d => ODict (map (fun kv => (fst kv, _asdict_inner (snd kv))) d)
  | _ => o
  end.

Definition asdict (o : obj) : obj := _asdict_inner o.

Fixpoint obj_weight (x : obj) : nat :=
  match x with
  | OList l => S (fold_right (fun v n => obj_weight v + n) 0 l)
  | OTuple l => S (fold_right (fun v n => obj_weight v + n) 0 l)
  | ODict d => S (fold_right (fun kv n => obj_weight (snd kv) + n) 0 d)
  | ORecord fs => 2 + fold_right (fun kv n => obj_weight (snd kv) + n) 0 fs
  | OEnum _ u => S (obj_weight u)
  | _ => 1
  end.

Lemma obj_weight_in_list (l : list obj) (v : obj) :
  In v l -> obj_weight v <= fold_right (fun v n => obj_weight v + n) 0 l.
Proof.
  induction l as [|a l IH]; simpl; [tauto|].
  intros [->|H]; [lia|]. specialize (IH H). lia.
Qed.

Lemma obj_weight_in_items (d : list (string * obj)) (kv : string * obj) :
  In kv d ->
  obj_weight (snd kv) <= fold_right (fun kv n => obj_weight (snd kv) + n) 0 d.
Proof.
  induction d as [|a d IH]; simpl; [tauto|].
  intros [->|H]; [lia|]. specialize (IH H). lia.
Qed.

Lemma obj_weight_asdict_inner (x : obj) :
  obj_weight (_asdict_inner x) <= obj_weight x.
Proof.
  induction x as [s|s|m u IH|l IH|l IH|d IH|fs IH|r] using obj_nested_ind;
    simpl; try lia.
  - apply le_n_S. induction IH; simpl; lia.
  - apply le_n_S. induction IH; simpl; lia.
  - apply le_n_S. induction IH; simpl; lia.
  - apply le_S, le_n_S. induction IH; simpl; lia.
Qed.

Lemma obj_weight_asdict_record (fs : list (string * obj)) :
  obj_weight (asdict (ORecord fs)) < obj_weight (ORecord fs).
Proof.
  unfold asdict. simpl. apply le_n_S, le_n_S.
  induction fs as [|kv fs IH]; simpl; [lia|].
  pose proof (obj_weight_asdict_inner (snd kv)). lia.
Qed.

(** [_transform_params_to_json_serializable(x, convert_list_to_dict)] on any
    object: the value of an enumeration member is returned as it is, and so
    is an object that is none of a dataclass instance, a dict, a list, a
    path and an enumeration member. *)
Equations? _transform_params_to_json_serializable
  (x : obj) (convert_list_to_dict : bool) : obj
  by wf (obj_weight x) lt :=
_transform_params_to_json_serializable (ORecord fs) flag :=
  _transform_params_to_json_serializable (asdict (ORecord fs)) flag;
_transform_params_to_json_serializable (ODict d) flag :=
  ODict (map_In d (fun kv _ =>
    (fst kv, _transform_params_to_json_serializable (snd kv) flag)));
_transform_params_to_json_serializable (OList l) flag :=
  if flag then
    ODict (PyDict.union
      [("list_len", OScalar (SInt (Z.of_nat (List.length l))))]
      (PyDict.of_items (map_In (enumerate l) (fun iv _ =>
         (str_of_nat (fst iv),
          _transform_params_to_json_serializable (snd iv) flag)))))
  else
    OList (map_In l (fun v _ =>
      _transform_params_to_json_serializable v flag));
_transform_params_to_json_serializable (OPath s) _ := OScalar (SStr s);
_transform_params_to_json_serializable (OEnum _ u) _ := u;
_transform_params_to_json_serializable (OScalar s) _ := OScalar s;
_transform_params_to_json_serializable (OTuple l) _ := OTuple l;
_transform_params_to_json_serializable (OOther r) _ := OOther r.
Proof.
  - apply le_n_S, obj_weight_in_list.
    match goal with H : In _ (enumerate _) |- _ =>
      apply in_enumerate_r in H; exact H end.
  - apply le_n_S, obj_weight_in_list. assumption.
  - apply le_n_S.
    match goal with H : In ?kv d |- _ =>
      apply (obj_weight_in_items d kv H) end.
  - apply obj_weight_asdict_record.
Qed.

(** ** What the transform computes, by recursion on the object *)

(** [image flag copied x] is the transform of [x], or, when [copied] is set,
    of the copy [asdict] has made of [x]: inside a dataclass instance the
    tuples have been rebuilt by [asdict], which converts the instances they
    hold, while the transform itself never looks into a tuple. *)
Fixpoint image (flag copied : bool) (x : obj) : obj :=
  match x with
  | ORecord fs => ODict (map (fun kv => (fst kv, image flag true (snd kv))) fs)
  | ODict d => ODict (map (fun kv => (fst kv, image flag copied (snd kv))) d)
  | OList l =>
      if flag then
        ODict (("list_len", OScalar (SInt (Z.of_nat (List.length l))))
               :: combine (map str_of_nat (seq 0 (List.length l)))
                          (map (image flag copied) l))
      else OList (map (image flag copied) l)
  | OPath s => OScalar (SStr s)
  | OEnum _ u => u
  | OTuple l => if copied then OTuple (map _asdict_inner l) else OTuple l
  | OScalar s => OScalar s
  | OOther r => OOther r
  end.

(** Nothing is left for the transform to do on [x]: through lists and
    dictionaries no path, enumeration member or dataclass instance is
    reached, and with the flag set no list either.  Tuples and objects of
    other types count as done, whatever they hold. *)
Fixpoint settled (flag : bool) (x : obj) : bool :=
  match x with
  | OScalar _ | OTuple _ | OOther _ => true
  | OList l => negb flag && forallb (settled flag) l
  | ODict d => forallb (fun kv => settled flag (snd kv)) d
  | OPath _ | OEnum _ _ | ORecord _ => false
  end.

(** Every enumeration member the transform reaches, through lists,
    dictionaries and dataclass instances, has a value on which nothing is
    left to do. *)
Fixpoint members_settled (flag : bool) (x : obj) : bool :=
  match x with
  | OEnum _ u => settled flag u
  | OList l => forallb (members_settled flag) l
  | ODict d => forallb (fun kv => members_settled flag (snd kv)) d
  | ORecord fs => forallb (fun kv => members_settled flag (snd kv)) fs
  | _ => true
  end.

(** No dataclass instance is reached through lists, tuples and
    dictionaries. *)
Fixpoint no_instance (x : obj) : bool :=
  match x with
  | ORecord _ => false
  | OList l => forallb no_instance l
  | OTuple l => forallb no_instance l
  | ODict d => forallb (fun kv => no_instance (snd kv)) d
  | _ => true
  end.

(** No tuple reached through lists and dictionaries holds a dataclass
    instance. *)
Fixpoint tuples_hold_no_instance (x : obj) : bool :=
  match x with
  | OTuple l => forallb no_instance l
  | OList l => forallb tuples_hold_no_instance l
  | ODict d => forallb (fun kv => tuples_hold_no_instance (snd kv)) d
  | _ => true
  end.

(** The configuration objects of Part I among all objects. *)
Fixpoint of_value (x : value) : obj :=
  match x with
  | VScalar s => OScalar s
  | VPath s => OPath s
  | VEnum m u => OEnum m (OScalar u)
  | VList l => OList (map of_value l)
  | VDict d => ODict (map (fun kv => (fst kv, of_value (snd kv))) d)
  | VRecord fs => ORecord (map (fun kv => (fst kv, of_value (snd kv))) fs)
  end.

End Objects.

Module ObjectFacts.
Import Objects.

Abbreviation T := Objects._transform_params_to_json_serializable.

Section Equations.
Variable flag : bool.

Lemma obj_transform_scalar (s : scalar) : T (OScalar s) flag = OScalar s.
Proof. now simp _transform_params_to_json_serializable. Qed.

Lemma obj_transform_path (s : string) : T (OPath s) flag = OScalar (SStr s).
Proof. now simp _transform_params_to_json_serializable. Qed.

Lemma obj_transform_enum (m : string) (u : obj) : T (OEnum m u) flag = u.
Proof. now simp _transform_params_to_json_serializable. Qed.

Lemma obj_transform_tuple (l : list obj) : T (OTuple l) flag = OTuple l.
Proof. now simp _transform_params_to_json_serializable. Qed.

Lemma obj_transform_other (r : string) : T (OOther r) flag = OOther r.
Proof. now simp _transform_params_to_json_serializable. Qed.

Lemma obj_transform_record (fs : list (string * obj)) :
  T (ORecord fs) flag = T (asdict (ORecord fs)) flag.
Proof. now simp _transform_params_to_json_serializable. Qed.

Lemma obj_transform_dict (d : list (string * obj)) :
  T (ODict d) flag = ODict (map (fun kv => (fst kv, T (snd kv) flag)) d).
Proof.
  simp _transform_params_to_json_serializable.
  now rewrite (map_In_map (fun kv => (fst kv, T (snd kv) flag))).
Qed.
End Equations.

Lemma obj_transform_list_keep (l : list obj) :
  T (OList l) false = OList (map (fun v => T v false) l).
Proof.
  simp _transform_params_to_json_serializable.
  now rewrite (map_In_map (fun v => T v false)).
Qed.

Lemma obj_transform_list_convert (l : list obj) :
  T (OList l) true =
    ODict (("list_len", OScalar (SInt (Z.of_nat (List.length l))))
           :: combine (map str_of_nat (seq 0 (List.length l)))
                      (map (fun v => T v true) l)).
Proof.
  simp _transform_params_to_json_serializable.
  rewrite (map_In_map (fun iv => (str_of_nat (fst iv), T (snd iv) true))).
  rewrite PyDictFacts.of_items_NoDup
    by apply (index_keys_NoDup (fun iv => T (snd iv) true)).
  unfold PyDict.union.
  rewrite PyDictFacts.update_fresh.
  - cbn [app]. do 2 f_equal. unfold enumerate. generalize 0.
    induction l as [|v l IH]; intros n; [reflexivity|].
    cbn [List.length seq combine map fst snd]. now rewrite IH.
  - apply (index_keys_NoDup (fun iv => T (snd iv) true)).
  - intros k Hk [E|[]]. unfold PyDict.keys in Hk. rewrite map_map in Hk.
    apply in_map_iff in Hk. destruct Hk as [iv [E' _]]. cbn [fst] in E'.
    subst k. exact (str_of_nat_not_list_len _ (eq_sym E)).
Qed.

(** The transform of the copy [asdict] makes, and of the object itself. *)
Lemma transform_of_copy (flag : bool) (x : obj) :
  T (_asdict_inner x) flag = image flag true x.
Proof.
  induction x as [s|s|m u IH|l IH|l IH|d IH|fs IH|r] using obj_nested_ind;
    cbn [_asdict_inner image].
  - apply obj_transform_scalar.
  - apply obj_transform_path.
  - apply obj_transform_enum.
  - rewrite Forall_forall in IH. destruct flag.
    + rewrite obj_transform_list_convert, length_map, map_map.
      do 3 f_equal. apply map_ext_in. exact IH.
    + rewrite obj_transform_list_keep, map_map. f_equal.
      apply map_ext_in. exact IH.
  - apply obj_transform_tuple.
  - rewrite obj_transform_dict, map_map. f_equal.
    rewrite Forall_forall in IH. apply map_ext_in. intros kv H.
    cbn [fst snd]. now rewrite (IH kv H).
  - rewrite obj_transform_dict, map_map. f_equal.
    rewrite Forall_forall in IH. apply map_ext_in. intros kv H.
    cbn [fst snd]. now rewrite (IH kv H).
  - apply obj_transform_other.
Qed.

Lemma transform_image (flag : bool) (x : obj) :
  T x flag = image flag false x.
Proof.
  induction x as [s|s|m u IH|l IH|l IH|d IH|fs IH|r] using obj_nested_ind;
    cbn [image].
  - apply obj_transform_scalar.
  - apply obj_transform_path.
  - apply obj_transform_enum.
  - rewrite Forall_forall in IH. destruct flag.
    + rewrite obj_transform_list_convert. do 3 f_equal.
      apply map_ext_in. exact IH.
    + rewrite obj_transform_list_keep. f_equal. apply map_ext_in. exact IH.
  - apply obj_transform_tuple.
  - rewrite obj_transform_dict. f_equal.
    rewrite Forall_forall in IH. apply map_ext_in. intros kv H.
    now rewrite (IH kv H).
  - rewrite obj_transform_record.
    exact (transform_of_copy flag (ORecord fs)).
  - apply obj_transform_other.
Qed.

(** *** Lists of pairs *)

Lemma map_values_combine (A B C : Type) (g : B -> C) (ks : list A)
    (vs : list B) :
  map (fun kv => (fst kv, g (snd kv))) (combine ks vs) = combine ks (map g vs).
Proof.
  revert vs. induction ks as [|k ks IH]; intros [|v vs]; try reflexivity.
  cbn [combine map fst snd]. now rewrite IH.
Qed.

Lemma forallb_values_combine (A B : Type) (p : B -> bool) (ks : list A)
    (vs : list B) :
  List.length ks = List.length vs ->
  forallb (fun kv => p (snd kv)) (combine ks vs) = forallb p vs.
Proof.
  revert vs. induction ks as [|k ks IH]; intros [|v vs]; try discriminate;
    [reflexivity|].
  intros [= L]. cbn [combine forallb snd]. now rewrite IH.
Qed.


Lemma index_keys_length (n : nat) :
  List.length (map str_of_nat (seq 0 n)) = n.
Proof. now rewrite length_map, length_seq. Qed.

Lemma map_fixed (A : Type) (g : A -> A) (l : list A) :
  map g l = l <-> (forall x, In x l -> g x = x).
Proof.
  induction l as [|a l IH]; cbn [map]; [now split|]. split.
  - intros [= Ha Hl] x [<-|H]; [exact Ha | now apply IH].
  - intros H. rewrite (H a) by now left. f_equal. apply IH.
    intros x Hx. apply H. now right.
Qed.

Lemma map_values_fixed (A : Type) (g : A -> A) (d : list (string * A)) :
  map (fun kv => (fst kv, g (snd kv))) d = d
  <-> (forall kv, In kv d -> g (snd kv) = snd kv).
Proof.
  induction d as [|[k v] d IH]; cbn [map fst snd]; [now split|]. split.
  - intros [= Hv Hd] kv [<-|H]; [exact Hv | now apply IH].
  - intros H. pose proof (H (k, v) (or_introl eq_refl)) as Hv.
    cbn [snd] in Hv. rewrite Hv. f_equal. apply IH.
    intros kv Hkv. apply H. now right.
Qed.



(** *** Fixed points *)

Lemma enum_not_its_value (m : string) (u : obj) : u <> OEnum m u.
Proof.
  intros E. apply (f_equal obj_weight) in E. cbn [obj_weight] in E. lia.
Qed.

Lemma image_fixed (flag : bool) (x : obj) :
  image flag false x = x <-> settled flag x = true.
Proof.
  induction x as [s|s|m u IH|l IH|l IH|d IH|fs IH|r] using obj_nested_ind;
    cbn [image settled]; try (split; [reflexivity | easy]);
    try (split; [discriminate | discriminate]).
  - split; [|discriminate]. intros E. now apply enum_not_its_value in E.
  - rewrite Forall_forall in IH. destruct flag; cbn [negb andb].
    + split; discriminate.
    + rewrite forallb_forall. split.
      * intros [= E] v Hv. apply (IH v Hv).
        now apply (proj1 (map_fixed _ l) E).
      * intros H. f_equal. apply map_fixed. intros v Hv.
        apply (IH v Hv), (H v Hv).
  - rewrite Forall_forall in IH. rewrite forallb_forall. split.
    + intros [= E] kv Hkv. apply (IH kv Hkv).
      now apply (proj1 (map_values_fixed _ d) E).
    + intros H. f_equal. apply map_values_fixed. intros kv Hkv.
      apply (IH kv Hkv), (H kv Hkv).
Qed.

(** *** The shape of the result *)

Lemma image_settled (flag copied : bool) (x : obj) :
  members_settled flag x = true -> settled flag (image flag copied x) = true.
Proof.
  revert copied.
  induction x as [s|s|m u IH|l IH|l IH|d IH|fs IH|r] using obj_nested_ind;
    intros copied; cbn [image members_settled]; try reflexivity.
  - easy.
  - rewrite Forall_forall in IH. rewrite forallb_forall. intros H.
    destruct flag; cbn [settled negb andb forallb snd].
    + rewrite forallb_values_combine
        by now rewrite index_keys_length, length_map.
      rewrite forallb_map. apply forallb_forall. intros v Hv.
      apply (IH v Hv), (H v Hv).
    + rewrite forallb_map. apply forallb_forall. intros v Hv.
      apply (IH v Hv), (H v Hv).
  - now destruct copied.
  - rewrite Forall_forall in IH. rewrite forallb_forall. intros H.
    cbn [settled]. rewrite forallb_map. apply forallb_forall. intros kv Hkv.
    cbn [snd]. apply (IH kv Hkv), (H kv Hkv).
  - rewrite Forall_forall in IH. rewrite forallb_forall. intros H.
    cbn [settled]. rewrite forallb_map. apply forallb_forall. intros kv Hkv.
    cbn [snd]. apply (IH kv Hkv), (H kv Hkv).
Qed.

(** *** Two passes *)

Lemma image_twice (flag1 flag2 copied : bool) (x : obj) :
  members_settled flag2 x = true ->
  image flag2 false (image flag1 copied x) = image (flag1 || flag2) copied x.
Proof.
  revert copied.
  induction x as [s|s|m u IH|l IH|l IH|d IH|fs IH|r] using obj_nested_ind;
    intros copied; cbn [image members_settled]; try reflexivity.
  - intros H. now apply image_fixed.
  - rewrite Forall_forall in IH. rewrite forallb_forall. intros H.
    destruct flag1; cbn [orb image map fst snd].
    + rewrite (map_values_combine (image flag2 false)), map_map.
      do 3 f_equal. apply map_ext_in. intros v Hv.
      exact (IH v Hv copied (H v Hv)).
    + destruct flag2; cbn [image].
      * rewrite length_map, map_map. do 3 f_equal.
        apply map_ext_in. intros v Hv. apply (IH v Hv), (H v Hv).
      * rewrite map_map. f_equal.
        apply map_ext_in. intros v Hv. apply (IH v Hv), (H v Hv).
  - intros _. now destruct copied.
  - rewrite Forall_forall in IH. rewrite forallb_forall. intros H.
    rewrite map_map. f_equal. apply map_ext_in. intros kv Hkv.
    cbn [fst snd]. f_equal. apply (IH kv Hkv), (H kv Hkv).
  - rewrite Forall_forall in IH. rewrite forallb_forall. intros H.
    rewrite map_map. f_equal. apply map_ext_in. intros kv Hkv.
    cbn [fst snd]. f_equal. apply (IH kv Hkv), (H kv Hkv).
Qed.

(** *** Dataclass instances and the copy [asdict] makes *)



(** *** The configuration objects of Part I *)

Lemma image_of_value (flag copied : bool) (x : value) :
  image flag copied (of_value x) = of_value (transformed flag x).
Proof.
  revert copied.
  induction x as [s|s|m u|l IH|d IH|fs IH] using value_nested_ind;
    intros copied; cbn [of_value image transformed]; try reflexivity.
  - rewrite Forall_forall in IH. destruct flag; cbn [of_value map fst snd].
    + rewrite length_map, (map_values_combine of_value), !map_map.
      do 3 f_equal. apply map_ext_in. intros v Hv. apply (IH v Hv).
    + rewrite !map_map. f_equal. apply map_ext_in. intros v Hv.
      apply (IH v Hv).
  - rewrite Forall_forall in IH. rewrite !map_map. f_equal.
    apply map_ext_in. intros kv Hkv. cbn [fst snd]. f_equal.
    apply (IH kv Hkv).
  - rewrite Forall_forall in IH. rewrite !map_map. f_equal.
    apply map_ext_in. intros kv Hkv. cbn [fst snd]. f_equal.
    apply (IH kv Hkv).
Qed.

(** On the configuration objects the two embeddings of the transform
    agree. *)
Lemma transform_of_value (flag : bool) (x : value) :
  T (of_value x) flag = of_value (_transform x flag).
Proof. now rewrite transform_image, image_of_value, transform_refines. Qed.

Lemma of_value_members_settled (flag : bool) (x : value) :
  members_settled flag (of_value x) = true.
Proof.
  induction x as [s|s|m u|l IH|d IH|fs IH] using value_nested_ind;
    cbn [of_value members_settled]; try reflexivity.
  - rewrite forallb_map. now apply forallb_Forall.
  - rewrite forallb_map. cbn [snd]. now apply forallb_Forall.
  - rewrite forallb_map. cbn [snd]. now apply forallb_Forall.
Qed.

Lemma of_value_tuples (x : value) :
  tuples_hold_no_instance (of_value x) = true.
Proof.
  induction x as [s|s|m u|l IH|d IH|fs IH] using value_nested_ind;
    cbn [of_value tuples_hold_no_instance]; try reflexivity.
  - rewrite forallb_map. now apply forallb_Forall.
  - rewrite forallb_map. cbn [snd]. now apply forallb_Forall.
Qed.

End ObjectFacts.

(** X1.  However the object is built from scalars, paths, enumeration
    members, lists, tuples, dictionaries, dataclass instances and objects of
    other types: when every enumeration member the transform reaches has a
    value on which nothing is left to do (as when the values are scalars),
    nothing is left to do on the result.  Through the lists and
    dictionaries of the result no path, enumeration member or dataclass
    instance is reached, and with the flag set no list; what a tuple or an
    object of another type holds is not looked at. *)
Theorem transform_result_is_settled :
  forall (x : Objects.obj) (flag : bool),
    Objects.members_settled flag x = true ->
    Objects.settled flag
      (Objects._transform_params_to_json_serializable x flag) = true.
Proof.
  intros x flag H. rewrite ObjectFacts.transform_image.
  now apply ObjectFacts.image_settled.
Qed.

Definition run_settings : Objects.obj :=
  Objects.ORecord
    [("dir", Objects.OPath "/tmp/run");
     ("mode", Objects.OEnum "FAST" (Objects.OScalar (SInt 1)));
     ("betas", Objects.OTuple [Objects.OPath "a"]);
     ("stages", Objects.OList [Objects.OPath "b"])].

Lemma transform_result_is_settled_witness :
  Objects.members_settled false run_settings = true
  /\ Objects.settled false
       (Objects._transform_params_to_json_serializable run_settings false)
     = true.
Proof.
  assert (H : Objects.members_settled false run_settings = true)
    by reflexivity.
  split; [exact H|].
  exact (transform_result_is_settled run_settings false H).
Defined.

(** X2.  Two passes of the transform are the single pass whose flag is the
    disjunction of the two flags, provided every enumeration member the
    first pass reaches has a value on which the second pass has nothing to
    do.  In particular the transform is then idempotent; on a member whose
    value is, say, a path it is not, since the value is returned
    untransformed by the first pass and converted by the second. *)
Theorem transform_twice :
  forall (x : Objects.obj) (flag1 flag2 : bool),
    Objects.members_settled flag2 x = true ->
    Objects._transform_params_to_json_serializable
      (Objects._transform_params_to_json_serializable x flag1) flag2
    = Objects._transform_params_to_json_serializable x (flag1 || flag2).
Proof.
  intros x flag1 flag2 H. rewrite !ObjectFacts.transform_image.
  now apply ObjectFacts.image_twice.
Qed.

Lemma transform_twice_witness :
  Objects.members_settled true run_settings = true
  /\ Objects._transform_params_to_json_serializable
       (Objects._transform_params_to_json_serializable run_settings false)
       true
     = Objects._transform_params_to_json_serializable run_settings true.
Proof.
  assert (H : Objects.members_settled true run_settings = true)
    by reflexivity.
  split; [exact H|].
  exact (transform_twice run_settings false true H).
Defined.

(** X3.  The transform returns an object unchanged exactly when nothing is
    left to do on it: through its lists and dictionaries no path,
    enumeration member or dataclass instance is reached, and with the flag
    set no list.  A tuple and an object of another type are therefore always
    returned as they are, also when they hold paths, enumeration members or
    dataclass instances. *)
Theorem transform_fixed_points :
  forall (x : Objects.obj) (flag : bool),
    Objects._transform_params_to_json_serializable x flag = x
    <-> Objects.settled flag x = true.
Proof.
  intros x flag. rewrite ObjectFacts.transform_image.
  apply ObjectFacts.image_fixed.
Qed.




(** ** The normalizer: errors, sequences, values, key collisions *)

(** Mappings and dataclass instances that hold nothing but mappings and
    dataclass instances of the same kind: they have no leaf. *)
Fixpoint hollow (x : value) : bool :=
  match x with
  | VDict d => forallb (fun kv => hollow (snd kv)) d
  | VRecord fs => forallb (fun kv => hollow (snd kv)) fs
  | _ => false
  end.

(** The assignments made while a mapping is flattened: the top-level
    entries that are not mappings, then the leaves of the nested ones. *)
Definition ordered_items (d : dict value) (sep : string)
  : list (string * value) :=
  top_entries d ++ flat_items (VDict (nested_entries d)) "" sep.

Lemma flat_items_length (x : value) (sep : string) :
  forall ks, List.length (flat_items x ks sep) = List.length (leaves x).
Proof.
  induction x as [s|s|m u|l IH|d IH|fs IH] using value_nested_ind;
    intros ks; try reflexivity.
  cbn [flat_items leaves].
  induction IH as [|[k v] d Hv _ IHd]; [reflexivity|].
  cbn [flat_map fst snd]. now rewrite !length_app, length_map, Hv, IHd.
Qed.

Lemma flat_items_values (x : value) (sep : string) :
  forall ks k v, In (k, v) (flat_items x ks sep) ->
    exists p, In (p, v) (leaves x).
Proof.
  induction x as [s|s|m u|l IH|d IH|fs IH] using value_nested_ind;
    intros ks k v; cbn [flat_items leaves];
    try (intros [[= _ <-]|[]]; eexists; left; reflexivity).
  rewrite Forall_forall in IH. intros H. apply in_flat_map in H.
  destruct H as [[k' x] [Hx H]]. cbn [fst snd] in H.
  destruct (IH _ Hx _ _ _ H) as [p Hp].
  exists (k' :: p). apply in_flat_map. exists (k', x). split; [exact Hx|].
  apply in_map_iff. now exists (p, v).
Qed.

Lemma flat_items_prefix (x : value) (sep : string) :
  forall ks k v, ks <> "" -> In (k, v) (flat_items x ks sep) ->
    exists rest, k = (ks ++ rest)%string.
Proof.
  induction x as [s|s|m u|l IH|d IH|fs IH] using value_nested_ind;
    intros ks k v N; cbn [flat_items];
    try (intros [[= <- _]|[]]; exists ""; clear; induction ks as [|c ks IH];
         [reflexivity | simpl; now rewrite <- IH]).
  rewrite Forall_forall in IH. intros H. apply in_flat_map in H.
  destruct H as [[k' x] [Hx H]]. cbn [fst snd] in H.
  rewrite PandasFacts.new_key_joined in H by exact N.
  destruct (IH _ Hx _ _ _ (append_nonempty_l _ N) H) as [rest ->].
  exists (sep ++ k' ++ rest)%string. now rewrite !append_assoc.
Qed.

Lemma ordered_eq (d : dict value) (sep : string) :
  Pandas._normalise_json_ordered d sep =
    PyDict.update (top_entries d)
      (PyDict.of_items (flat_items (VDict (nested_entries d)) "" sep)).
Proof.
  unfold Pandas._normalise_json_ordered, PyDict.union.
  now rewrite PandasFacts.normalise_json_update.
Qed.

Lemma leaves_partition (d : dict value) :
  Permutation (leaves (VDict d))
    (leaves (VDict (top_entries d)) ++ leaves (VDict (nested_entries d))).
Proof. cbn [leaves]. apply flat_map_partition. Qed.

Lemma leaves_top_entries (d : dict value) :
  List.length (leaves (VDict (top_entries d))) = List.length (top_entries d).
Proof.
  unfold top_entries. cbn [leaves].
  induction d as [|[k v] d IH]; [reflexivity|]. cbn [filter snd].
  destruct v; cbn [Pandas.is_dict negb flat_map leaves fst snd map app
                   List.length]; now rewrite ?IH.
Qed.

Lemma ordered_items_length (d : dict value) (sep : string) :
  List.length (ordered_items d sep) = List.length (leaves (VDict d)).
Proof.
  unfold ordered_items.
  rewrite (Permutation_length (leaves_partition d)), !length_app.
  now rewrite flat_items_length, leaves_top_entries.
Qed.

Lemma update_of_items_nil (d : dict value) (items : list (string * value)) :
  PyDict.update d (PyDict.of_items items) = [] <-> d ++ items = [].
Proof.
  split.
  - intros H. apply PyDictMore.update_nil_inv in H. destruct H as [-> H].
    apply PyDictMore.update_nil_inv in H. now destruct H as [_ ->].
  - intros H. apply app_eq_nil in H. now destruct H as [-> ->].
Qed.

(** Flattening fails exactly on the mappings without a leaf. *)
Lemma flatten_dict_cases (d : dict value) (sep : string) :
  (leaves (VDict d) = [] /\ _flatten_dict d sep = Raise IndexError)
  \/ (leaves (VDict d) <> []
      /\ _flatten_dict d sep =
           Ok (PyDict.of_items
                 (PyDict.update (top_entries d)
                    (PyDict.of_items
                       (flat_items (VDict (nested_entries d)) "" sep))))).
Proof.
  rewrite flatten_dict_eq, ordered_eq.
  pose proof (ordered_items_length d sep) as L. unfold ordered_items in L.
  destruct (PyDict.update _ _) as [|kv M] eqn:E.
  - left. split; [|reflexivity]. apply update_of_items_nil in E.
    rewrite E in L. now apply length_zero_iff_nil.
  - right. split; [|reflexivity]. intros H. rewrite H in L. cbn in L.
    apply length_zero_iff_nil in L.
    assert (E' : PyDict.update (top_entries d)
                   (PyDict.of_items
                      (flat_items (VDict (nested_entries d)) "" sep)) = [])
      by now apply update_of_items_nil.
    congruence.
Qed.

Lemma leaves_items_nil (g : value -> value) (h : value -> bool)
    (d : list (string * value)) :
  Forall (fun kv => leaves (g (snd kv)) = [] <-> h (snd kv) = true) d ->
  leaves (VDict (map (fun kv => (fst kv, g (snd kv))) d)) = []
  <-> forallb (fun kv => h (snd kv)) d = true.
Proof.
  intros IH. cbn [leaves].
  induction IH as [|[k v] d Hv _ IHd]; [split; reflexivity|].
  cbn [map flat_map forallb fst snd] in *. rewrite andb_true_iff. split.
  - intros H. apply app_eq_nil in H. destruct H as [H1 H2].
    apply map_eq_nil in H1. split; [now apply Hv | now apply IHd].
  - intros [H1 H2]. apply Hv in H1. apply IHd in H2. now rewrite H1, H2.
Qed.

Lemma hollow_leaves (x : value) :
  leaves (_transform x true) = [] <-> hollow x = true.
Proof.
  induction x as [s|s|m u|l IH|d IH|fs IH] using value_nested_ind.
  - rewrite transform_scalar. split; discriminate.
  - rewrite transform_path. split; discriminate.
  - rewrite transform_enum. split; discriminate.
  - rewrite transform_list_convert. split; discriminate.
  - rewrite transform_dict. cbn [hollow].
    now apply (leaves_items_nil (fun v => _transform v true) hollow).
  - rewrite transform_record_fields. cbn [hollow].
    now apply (leaves_items_nil (fun v => _transform v true) hollow).
Qed.

Lemma transform_atom (x : value) :
  is_atom x = true -> is_scalar (_transform x true) = true.
Proof.
  destruct x; try discriminate; intros _.
  - now rewrite transform_scalar.
  - now rewrite transform_path.
  - now rewrite transform_enum.
Qed.

Lemma transform_container (x : value) :
  is_atom x = false -> exists raw, _transform x true = VDict raw.
Proof.
  destruct x; try discriminate; intros _; eexists.
  - apply transform_list_convert.
  - apply transform_dict.
  - apply transform_record_fields.
Qed.

Lemma normalize_failures_aux :
  forall x : value,
    (is_atom x = true -> normalize (Some x) = Raise NotImplementedError)
    /\ (hollow x = true -> normalize (Some x) = Raise IndexError)
    /\ (is_atom x = false -> hollow x = false ->
        exists m, normalize (Some x) = Ok m).
Proof.
  intros x.
  unfold _compute_mlflow_params_from_objects,
    _compute_mlflow_params_from_objects_with.
  fold _flatten_dict. split; [|split].
  - intros A. apply transform_atom in A.
    destruct (_transform x true); try discriminate A. reflexivity.
  - intros H. assert (A : is_atom x = false) by (destruct x; easy).
    destruct (transform_container x A) as [raw E].
    apply hollow_leaves in H. rewrite E in *.
    destruct (flatten_dict_cases raw "/") as [[_ F]|[N _]];
      [exact F | contradiction].
  - intros A H. destruct (transform_container x A) as [raw E].
    assert (N : leaves (_transform x true) <> []).
    { intros L. apply hollow_leaves in L. congruence. }
    rewrite E in *.
    destruct (flatten_dict_cases raw "/") as [[L _]|[_ F]];
      [contradiction | eexists; exact F].
Qed.


(** X5.  On the configuration objects of Part I (built from scalars,
    paths, enumeration members with a scalar value, lists, dictionaries and
    dataclass instances; no tuple and no object of another type) the
    normalizer fails in two ways only.  On an object other than None that
    is a scalar, a path or an enumeration member it raises
    NotImplementedError; on a dictionary or dataclass instance that holds
    nothing but empty dictionaries and instances, nested to any depth, it
    raises IndexError; on every other list, dictionary or instance it returns
    a mapping. *)
Theorem normalize_failures :
  forall x : value,
    (is_atom x = true -> x <> VScalar SNone ->
     normalize (Some x) = Raise NotImplementedError)
    /\ (hollow x = true -> normalize (Some x) = Raise IndexError)
    /\ (is_atom x = false -> hollow x = false ->
        exists m, normalize (Some x) = Ok m).
Proof.
  intros x. destruct (normalize_failures_aux x) as [A [H R]].
  split; [|split]; [intros a _; exact (A a) | exact H | exact R].
Qed.

Lemma normalize_failures_witness :
  (is_atom (VPath "/tmp/run") = true
   /\ VPath "/tmp/run" <> VScalar SNone
   /\ normalize (Some (VPath "/tmp/run")) = Raise NotImplementedError)
  /\ (hollow (VRecord [("inner", VDict [])]) = true
      /\ normalize (Some (VRecord [("inner", VDict [])])) = Raise IndexError)
  /\ (is_atom (VList []) = false /\ hollow (VList []) = false
      /\ exists m, normalize (Some (VList [])) = Ok m).
Proof.
  assert (H1 : is_atom (VPath "/tmp/run") = true) by reflexivity.
  assert (H0 : VPath "/tmp/run" <> VScalar SNone) by discriminate.
  assert (H2 : hollow (VRecord [("inner", VDict [])]) = true) by reflexivity.
  assert (H3 : is_atom (VList []) = false) by reflexivity.
  assert (H4 : hollow (VList []) = false) by reflexivity.
  split; [|split].
  - split; [exact H1|]. split; [exact H0|].
    exact (proj1 (normalize_failures (VPath "/tmp/run")) H1 H0).
  - split; [exact H2|].
    exact (proj1 (proj2 (normalize_failures
                           (VRecord [("inner", VDict [])]))) H2).
  - split; [exact H3|]. split; [exact H4|].
    exact (proj2 (proj2 (normalize_failures (VList []))) H3 H4).
Defined.

(** The string contains the separator character. *)
Fixpoint has_slash (s : string) : bool :=
  match s with
  | EmptyString => false
  | String c r => Ascii.eqb c "/" || has_slash r
  end.

Lemma has_slash_append (a b : string) :
  has_slash (a ++ b) = has_slash a || has_slash b.
Proof.
  induction a as [|c a IH]; [reflexivity|]. simpl.
  now rewrite IH, orb_assoc.
Qed.

Lemma has_slash_str_of_nat (i : nat) : has_slash (str_of_nat i) = false.
Proof.
  unfold str_of_nat. generalize (Nat.to_uint i). intros d.
  induction d; simpl; auto.
Qed.

Lemma str_of_nat_not_blank (i : nat) : str_of_nat i <> "".
Proof.
  intros E. assert (E0 : str_of_nat i = NilEmpty.string_of_uint Decimal.Nil)
    by exact E.
  unfold str_of_nat in E0.
  apply (f_equal NilEmpty.uint_of_string) in E0.
  rewrite !NilEmpty.usu in E0. injection E0 as E0.
  apply (f_equal Nat.of_uint) in E0. rewrite DecimalNat.Unsigned.of_to in E0.
  subst i. discriminate E.
Qed.

Lemma get_rev_NoDup (A : Type) (l : dict A) (k : string) :
  NoDup (PyDict.keys l) -> PyDict.get (rev l) k = PyDict.get l k.
Proof.
  intros ND. destruct (PyDict.get l k) as [v|] eqn:E.
  - apply PyDictFacts.NoDup_In_get.
    + unfold PyDict.keys. rewrite map_rev. now apply NoDup_rev.
    + apply in_rev. rewrite rev_involutive. now apply PyDictFacts.get_Some_In.
  - apply PyDictFacts.get_None_iff. apply PyDictFacts.get_None_iff in E.
    unfold PyDict.keys in *. rewrite map_rev. intros H. apply E.
    now apply in_rev.
Qed.

Lemma NoDup_keys_filter (A : Type) (p : string * A -> bool) (l : dict A) :
  NoDup (PyDict.keys l) -> NoDup (PyDict.keys (filter p l)).
Proof.
  unfold PyDict.keys. induction l as [|[k v] l IH]; simpl; intros ND;
    [constructor|].
  inversion ND as [|? ? Hk ND']; subst.
  destruct (p (k, v)); simpl; [|now apply IH].
  constructor; [|now apply IH].
  intros H. apply Hk. apply in_map_iff in H. destruct H as [kv [E H]].
  apply filter_In in H. destruct H as [H _]. apply in_map_iff. now exists kv.
Qed.

(** What flattening keeps under a key: the last assignment made for it among
    the nested leaves, or else the top-level entry. *)
Lemma flatten_get (d m : dict value) (sep k : string) :
  NoDup (PyDict.keys d) ->
  _flatten_dict d sep = Ok m ->
  PyDict.get m k =
    match PyDict.get (rev (flat_items (VDict (nested_entries d)) "" sep)) k with
    | Some v => Some v
    | None => PyDict.get (top_entries d) k
    end.
Proof.
  intros ND E.
  destruct (flatten_dict_cases d sep) as [[_ F]|[_ F]]; [congruence|].
  rewrite F in E. injection E as <-.
  assert (NT : NoDup (PyDict.keys (top_entries d)))
    by now apply NoDup_keys_filter.
  rewrite PyDictFacts.of_items_NoDup
    by now apply PyDictFacts.NoDup_keys_update.
  rewrite PyDictFacts.get_update.
  rewrite get_rev_NoDup by apply PyDictFacts.NoDup_keys_of_items.
  unfold PyDict.of_items at 1. rewrite PyDictFacts.get_update.
  cbn [flat_items]. now destruct (PyDict.get (rev _) k).
Qed.

Lemma nested_keys_have_slash (d : dict value) :
  top_keys_named d ->
  forall k v, In (k, v) (flat_items (VDict (nested_entries d)) "" "/") ->
    has_slash k = true.
Proof.
  intros K k v H. cbn [flat_items] in H. apply in_flat_map in H.
  destruct H as [[k0 x] [Hx H]]. cbn [fst snd] in H.
  rewrite PandasFacts.new_key_blank in H.
  apply filter_In in Hx. destruct Hx as [Hx D]. cbn [snd] in D.
  assert (N : k0 <> "") by exact (K k0 x Hx D).
  destruct x; try discriminate D. cbn [flat_items] in H.
  apply in_flat_map in H. destruct H as [[k1 y] [_ H]]. cbn [fst snd] in H.
  rewrite PandasFacts.new_key_joined in H by exact N.
  destruct (@flat_items_prefix y "/" _ k v (append_nonempty_l _ N) H)
    as [rest ->].
  rewrite !has_slash_append. cbn. now rewrite orb_true_r.
Qed.

Lemma slash_free_key_kept (d m : dict value) (k : string) :
  NoDup (PyDict.keys d) -> top_keys_named d ->
  _flatten_dict d "/" = Ok m ->
  has_slash k = false ->
  PyDict.get m k = PyDict.get (top_entries d) k.
Proof.
  intros ND K E S. rewrite (@flatten_get d m "/" k ND E).
  destruct (PyDict.get (rev _) k) as [v|] eqn:G; [|reflexivity].
  apply PyDictFacts.get_Some_In, in_rev in G.
  apply (@nested_keys_have_slash d K) in G. congruence.
Qed.

(** The mapping a sequence is converted into. *)
Definition list_mapping (l : list value) : dict value :=
  ("list_len", VScalar (SInt (Z.of_nat (List.length l))))
  :: map (fun iv => (str_of_nat (fst iv), _transform (snd iv) true))
         (enumerate l).

Lemma list_mapping_keys_NoDup (l : list value) :
  NoDup (PyDict.keys (list_mapping l)).
Proof.
  unfold list_mapping, PyDict.keys. cbn [map fst]. constructor.
  - intros H. rewrite map_map in H. apply in_map_iff in H.
    destruct H as [iv [E _]]. exact (str_of_nat_not_list_len _ E).
  - apply (index_keys_NoDup (fun iv => _transform (snd iv) true)).
Qed.

Lemma list_mapping_keys_named (l : list value) :
  top_keys_named (list_mapping l).
Proof.
  intros k v [[= <- <-]|H] D; [discriminate D|].
  apply in_map_iff in H. destruct H as [iv [[= <- _] _]].
  apply str_of_nat_not_blank.
Qed.

(** X6.  A sequence given as the configuration always normalizes: the
    result holds the length under list_len and every element that is a
    scalar, a path or an enumeration member under its stringified index. *)
Theorem normalize_sequence_config :
  forall l : list value,
    exists m,
      normalize (Some (VList l)) = Ok m
      /\ PyDict.get m "list_len" = Some (VInt (Z.of_nat (List.length l)))
      /\ forall i v, nth_error l i = Some v -> is_atom v = true ->
           PyDict.get m (str_of_nat i) = Some (_transform v true).
Proof.
  intros l.
  destruct (proj2 (proj2 (normalize_failures_aux (VList l))) eq_refl eq_refl)
    as [m E].
  exists m. split; [exact E|].
  unfold _compute_mlflow_params_from_objects,
    _compute_mlflow_params_from_objects_with in E.
  fold _flatten_dict in E. rewrite transform_list_convert in E.
  fold (list_mapping l) in E.
  pose proof (list_mapping_keys_NoDup l) as ND.
  pose proof (@list_mapping_keys_named l) as K.
  split.
  - rewrite (@slash_free_key_kept _ m "list_len" ND K E) by reflexivity.
    unfold list_mapping, top_entries. cbn [filter snd Pandas.is_dict negb].
    cbn [PyDict.get]. now rewrite String.eqb_refl.
  - intros i v Hi A.
    rewrite (@slash_free_key_kept _ m (str_of_nat i) ND K E)
      by apply has_slash_str_of_nat.
    apply PyDictFacts.NoDup_In_get; [now apply NoDup_keys_filter|].
    apply filter_In. split.
    + right. apply in_map_iff. exists (i, v). split; [reflexivity|].
      apply enumerate_nth_error in Hi. eapply nth_error_In, Hi.
    + cbn [snd]. apply transform_atom in A.
      now destruct (_transform v true).
Qed.

Lemma normalize_sequence_config_witness :
  nth_error [VPath "/data"; VDict [("lr", VInt 1)]] 0 = Some (VPath "/data")
  /\ is_atom (VPath "/data") = true
  /\ exists m,
       normalize (Some (VList [VPath "/data"; VDict [("lr", VInt 1)]])) = Ok m
       /\ PyDict.get m "list_len" = Some (VInt 2)
       /\ PyDict.get m "0" = Some (VStr "/data").
Proof.
  assert (H1 : nth_error [VPath "/data"; VDict [("lr", VInt 1)]] 0
               = Some (VPath "/data")) by reflexivity.
  assert (H2 : is_atom (VPath "/data") = true) by reflexivity.
  split; [exact H1|]. split; [exact H2|].
  destruct (normalize_sequence_config
              [VPath "/data"; VDict [("lr", VInt 1)]]) as [m [E [L G]]].
  exists m. split; [exact E|]. split; [exact L|].
  exact (G 0 (VPath "/data") H1 H2).
Defined.

Lemma scalar_tree_filter (p : string * value -> bool) (d : dict value) :
  scalar_tree (VDict d) = true -> scalar_tree (VDict (filter p d)) = true.
Proof.
  cbn [scalar_tree]. intros H. apply forallb_forall. intros kv Hin.
  apply filter_In in Hin. rewrite forallb_forall in H. now apply H.
Qed.

Lemma normalize_Ok_inv (x : value) (m : dict value) :
  normalize (Some x) = Ok m ->
  exists raw,
    _transform x true = VDict raw
    /\ scalar_tree (VDict raw) = true
    /\ _flatten_dict raw "/" = Ok m.
Proof.
  unfold _compute_mlflow_params_from_objects,
    _compute_mlflow_params_from_objects_with.
  fold _flatten_dict. intros E.
  pose proof (transform_convert_scalar_tree x) as S.
  destruct (_transform x true) as [| | | |raw|]; try discriminate E.
  now exists raw.
Qed.

(** X7.  On the configuration objects of Part I (built from scalars,
    paths, enumeration members with a scalar value, lists, dictionaries and
    dataclass instances; no tuple and no object of another type), a mapping
    returned by the normalizer is flat: its keys are pairwise different and
    every value in it is a scalar. *)
Theorem normalize_result_is_flat :
  forall (x : value) (m : dict value),
    normalize (Some x) = Ok m ->
    NoDup (PyDict.keys m)
    /\ forall k v, In (k, v) m -> is_scalar v = true.
Proof.
  intros x m E. destruct (normalize_Ok_inv x E) as [raw [_ [S F]]].
  destruct (flatten_dict_cases raw "/") as [[_ F']|[_ F']]; [congruence|].
  rewrite F' in F. injection F as <-. split.
  - apply PyDictFacts.NoDup_keys_of_items.
  - intros k v H. apply PyDictMore.In_of_items, PyDictMore.In_update in H.
    destruct H as [H|H].
    + apply filter_In in H. destruct H as [H D]. cbn [snd] in D.
      cbn [scalar_tree] in S. rewrite forallb_forall in S.
      specialize (S _ H). cbn [snd] in S.
      destruct v; try discriminate; reflexivity.
    + apply PyDictMore.In_of_items in H.
      apply (@flat_items_values (VDict (nested_entries raw)) "/" "" k v)
        in H.
      destruct H as [p H].
      apply (leaves_scalar_tree _ (scalar_tree_filter _ _ S) _ _ H).
Qed.

Lemma normalize_result_is_flat_witness :
  normalize (Some (VRecord [("paths", VList [VPath "/a"; VPath "/b"]);
                            ("mode", VEnum "FAST" (SStr "fast"))]))
  = Ok [("mode", VStr "fast"); ("paths/list_len", VInt 2);
        ("paths/0", VStr "/a"); ("paths/1", VStr "/b")]
  /\ NoDup (PyDict.keys [("mode", VStr "fast"); ("paths/list_len", VInt 2);
                        ("paths/0", VStr "/a"); ("paths/1", VStr "/b")])
  /\ forall k v,
       In (k, v) [("mode", VStr "fast"); ("paths/list_len", VInt 2);
                  ("paths/0", VStr "/a"); ("paths/1", VStr "/b")] ->
       is_scalar v = true.
Proof.
  assert (H : normalize
                (Some (VRecord [("paths", VList [VPath "/a"; VPath "/b"]);
                                ("mode", VEnum "FAST" (SStr "fast"))]))
              = Ok [("mode", VStr "fast"); ("paths/list_len", VInt 2);
                    ("paths/0", VStr "/a"); ("paths/1", VStr "/b")])
    by reflexivity.
  split; [exact H|].
  exact (normalize_result_is_flat _ H).
Defined.

(** X8.  Take a nested mapping with scalar leaves and at least one leaf,
    whose top-level keys are pairwise different (as the keys of a dict are)
    and in which no nested mapping sits under the empty top-level key.  The
    normalizer returns a mapping for it, also when several leaves come under
    the same flattened key: then one value is kept and the others are dropped
    silently, namely the value of the last leaf, in depth-first order, of the
    nested mappings whose path joins to the key, and the top-level scalar
    entry with that key only when there is no such leaf.  A top-level scalar
    entry whose key contains no slash is therefore always kept. *)
Theorem normalize_key_collisions :
  forall (d : dict value),
    scalar_tree (VDict d) = true ->
    NoDup (PyDict.keys d) ->
    top_keys_named d ->
    leaves (VDict d) <> [] ->
    exists m,
      normalize (Some (VDict d)) = Ok m
      /\ forall k,
           PyDict.get m k =
             match PyDict.get (rev (joined "/" (VDict (nested_entries d)))) k
             with
             | Some v => Some v
             | None => PyDict.get (top_entries d) k
             end
           /\ (has_slash k = false ->
               PyDict.get m k = PyDict.get (top_entries d) k).
Proof.
  intros d S ND K L. rewrite (normalize_dict _ S).
  destruct (flatten_dict_cases d "/") as [[N _]|[_ E]]; [contradiction|].
  eexists. split; [exact E|]. intros k. split.
  - rewrite (@flatten_get d _ "/" k ND E).
    now rewrite PathFacts.flat_items_root
      by now apply NormalizerFacts.top_keys_named_nested.
  - now apply slash_free_key_kept.
Qed.

Definition colliding_config : dict value :=
  [("a/b", VInt 1); ("a", VDict [("b", VInt 2)]); ("c", VInt 3)].

Lemma normalize_key_collisions_witness :
  scalar_tree (VDict colliding_config) = true
  /\ NoDup (PyDict.keys colliding_config)
  /\ top_keys_named colliding_config
  /\ leaves (VDict colliding_config) <> []
  /\ normalize (Some (VDict colliding_config))
     = Ok [("a/b", VInt 2); ("c", VInt 3)]
  /\ exists m,
       normalize (Some (VDict colliding_config)) = Ok m
       /\ forall k,
            PyDict.get m k =
              match
                PyDict.get
                  (rev (joined "/" (VDict (nested_entries colliding_config))))
                  k
              with
              | Some v => Some v
              | None => PyDict.get (top_entries colliding_config) k
              end
            /\ (has_slash k = false ->
                PyDict.get m k = PyDict.get (top_entries colliding_config) k).
Proof.
  assert (H1 : scalar_tree (VDict colliding_config) = true) by reflexivity.
  assert (H2 : NoDup (PyDict.keys colliding_config)).
  { repeat constructor; simpl; intuition discriminate. }
  assert (H3 : top_keys_named colliding_config).
  { intros k v [[= <- <-]|[[= <- <-]|[[= <- <-]|[]]]] _; discriminate. }
  assert (H4 : leaves (VDict colliding_config) <> []) by discriminate.
  assert (H5 : normalize (Some (VDict colliding_config))
               = Ok [("a/b", VInt 2); ("c", VInt 3)]) by reflexivity.
  split; [exact H1|]. split; [exact H2|]. split; [exact H3|].
  split; [exact H4|]. split; [exact H5|].
  exact (normalize_key_collisions H1 H2 H3 H4).
Defined.

(** ** Construction: registry, calls made, failure of a backend *)

Module InitFacts.
Import Tracking TrackingSpec TrackingFacts TrackingOutcome InitSpec.
Local Open Scope py_scope.

Ltac settle :=
  cbn beta iota zeta;
  cbn [fresh add_effects logger console_logger effects environ fst snd
       PyDict.set String.eqb Ascii.eqb Bool.eqb app map filter orb
       supported_backend handle_of requested];
  unfold wandb_requested;
  rewrite <- ?app_assoc, ?app_nil_r; cbn [app].

Lemma init_success (project_name experiment_name : string)
    (arg : backend_arg) (config : option value) (env : dict string)
    (params : dict value) :
  forallb accepted (backend_names arg) = true ->
  (contains (backend_names arg) "mlflow" = true ->
   _compute_mlflow_params_from_objects config = Ok params) ->
  __init__ project_name experiment_name arg config (fresh env) =
    (Ok tt,
     {| environ := env;
        logger := Some (registry_for (backend_names arg));
        console_logger :=
          if contains (backend_names arg) "console"
          then Some (LocalLogger true) else None;
        effects :=
          warnings_of (backend_names arg)
          ++ init_calls env project_name experiment_name (backend_names arg)
               config params |}).
Proof.
  intros A N. rewrite init_split. unfold bind at 1.
  rewrite (check_all_accepted _ _ A).
  unfold registry_for, init_calls, wandb_calls, wandb_requested.
  run. settle.
  destruct (contains (backend_names arg) "wandb");
    destruct (contains (backend_names arg) "tracking");
    destruct (contains (backend_names arg) "mlflow");
    destruct (contains (backend_names arg) "console");
    cbn [orb]; settle;
    try rewrite (N eq_refl); settle;
    try destruct (truthy (PyDict.get env "WANDB_API_KEY")); settle;
    reflexivity.
Qed.

Lemma init_failure (project_name experiment_name : string)
    (arg : backend_arg) (config : option value) (env : dict string)
    (e : exn) :
  forallb accepted (backend_names arg) = true ->
  contains (backend_names arg) "mlflow" = true ->
  _compute_mlflow_params_from_objects config = Raise e ->
  __init__ project_name experiment_name arg config (fresh env) =
    (Raise e,
     {| environ := env;
        logger :=
          Some (if wandb_requested (backend_names arg)
                then [("wandb", Wandb)] else []);
        console_logger := None;
        effects :=
          warnings_of (backend_names arg)
          ++ (if wandb_requested (backend_names arg)
              then wandb_calls env project_name experiment_name config
              else [])
          ++ [MlflowStartRun experiment_name] |}).
Proof.
  intros A M N. rewrite init_split. unfold bind at 1.
  rewrite (check_all_accepted _ _ A).
  unfold wandb_calls, wandb_requested.
  run. settle. rewrite M.
  destruct (contains (backend_names arg) "wandb");
    destruct (contains (backend_names arg) "tracking");
    cbn [orb]; settle;
    try rewrite N; settle;
    try destruct (truthy (PyDict.get env "WANDB_API_KEY")); settle;
    try rewrite N; settle;
    reflexivity.
Qed.

Lemma init_rejected (project_name experiment_name : string)
    (arg : backend_arg) (config : option value) (env : dict string) :
  forallb accepted (backend_names arg) = false ->
  exists msg st',
    __init__ project_name experiment_name arg config (fresh env)
    = (Raise (AssertionError msg), st')
    /\ logger st' = None
    /\ Forall (fun e => e = deprecation_warning) (effects st').
Proof.
  intros F. destruct (first_rejected _ F) as [pre [b [post [E [Hp Hb]]]]].
  exists (b ++ " is not supported")%string,
         (add_effects (fresh env) (warnings_of pre)).
  split; [|split; [reflexivity | apply warnings_only]].
  rewrite init_split, E. unfold bind at 1.
  now rewrite (@check_first_rejected pre post b _ Hp Hb).
Qed.

(** The registry of every facade whose construction succeeded. *)
Lemma constructed_registry (project_name experiment_name : string)
    (arg : backend_arg) (config : option value) (env : dict string)
    (st : state) :
  __init__ project_name experiment_name arg config (fresh env) = (Ok tt, st) ->
  logger st = Some (registry_for (backend_names arg)).
Proof.
  intros H.
  destruct (forallb accepted (backend_names arg)) eqn:A.
  - destruct (_compute_mlflow_params_from_objects config) as [params|e] eqn:N.
    + rewrite (@init_success _ _ arg config env params A (fun _ => N)) in H.
      now injection H as <-.
    + destruct (contains (backend_names arg) "mlflow") eqn:M.
      * rewrite (@init_failure _ _ arg config env e A M N) in H. discriminate.
      * rewrite (@init_success _ _ arg config env [] A) in H
          by (intros; congruence).
        now injection H as <-.
  - destruct (@init_rejected project_name experiment_name arg config env A)
      as [msg [st' [E _]]].
    rewrite E in H. discriminate.
Qed.

End InitFacts.

Module InitMore.
Import Tracking TrackingSpec TrackingFacts TrackingOutcome InitSpec InitFacts.
Local Open Scope py_scope.

(** The state a successful construction ends in. *)
Lemma constructed_state (project_name experiment_name : string)
    (arg : backend_arg) (config : option value) (env : dict string)
    (st : state) :
  __init__ project_name experiment_name arg config (fresh env) = (Ok tt, st) ->
  exists params,
    (contains (backend_names arg) "mlflow" = true ->
     _compute_mlflow_params_from_objects config = Ok params)
    /\ st =
       {| environ := env;
          logger := Some (registry_for (backend_names arg));
          console_logger :=
            if contains (backend_names arg) "console"
            then Some (LocalLogger true) else None;
          effects :=
            warnings_of (backend_names arg)
            ++ init_calls env project_name experiment_name (backend_names arg)
                 config params |}.
Proof.
  intros H.
  destruct (forallb accepted (backend_names arg)) eqn:A.
  - destruct (_compute_mlflow_params_from_objects config) as [params|e] eqn:N.
    + exists params. split; [intros _; reflexivity|].
      rewrite (@init_success _ _ arg config env params A (fun _ => N)) in H.
      now injection H as <-.
    + destruct (contains (backend_names arg) "mlflow") eqn:M.
      * rewrite (@init_failure _ _ arg config env e A M N) in H. discriminate.
      * exists []. split; [intros; congruence|].
        rewrite (@init_success _ _ arg config env [] A) in H
          by (intros; congruence).
        now injection H as <-.
  - destruct (@init_rejected project_name experiment_name arg config env A)
      as [msg [st' [E _]]].
    rewrite E in H. discriminate.
Qed.

Lemma warnings_no_log (l : list string) :
  Forall (fun e => is_log_call e = false) (warnings_of l).
Proof.
  apply Forall_forall. intros e H.
  pose proof (warnings_only l) as W. rewrite Forall_forall in W.
  now rewrite (W e H).
Qed.

Lemma init_calls_no_log (env : dict string) (project_name experiment_name : string)
    (names : list string) (config : option value) (params : dict value) :
  Forall (fun e => is_log_call e = false)
    (init_calls env project_name experiment_name names config params).
Proof.
  unfold init_calls, wandb_calls.
  destruct (wandb_requested names); destruct (contains names "mlflow");
    destruct (contains names "console");
    destruct (truthy (PyDict.get env "WANDB_API_KEY"));
    cbn [app]; repeat constructor.
Qed.

Lemma wandb_calls_no_log (env : dict string) (project_name experiment_name : string)
    (config : option value) :
  Forall (fun e => is_log_call e = false)
    (wandb_calls env project_name experiment_name config).
Proof.
  unfold wandb_calls.
  destruct (truthy (PyDict.get env "WANDB_API_KEY")); repeat constructor.
Qed.

Lemma init_effects_no_log (project_name experiment_name : string)
    (arg : backend_arg) (config : option value) (env : dict string)
    (r : result unit) (st : state) :
  __init__ project_name experiment_name arg config (fresh env) = (r, st) ->
  Forall (fun e => is_log_call e = false) (effects st).
Proof.
  intros H.
  destruct (forallb accepted (backend_names arg)) eqn:A.
  - assert (S : forall params,
              (contains (backend_names arg) "mlflow" = true ->
               _compute_mlflow_params_from_objects config = Ok params) ->
              Forall (fun e => is_log_call e = false) (effects st)).
    { intros params N.
      rewrite (@init_success _ _ arg config env params A N) in H.
      injection H as _ <-. cbn [effects].
      apply Forall_app. split;
        [apply warnings_no_log | apply init_calls_no_log]. }
    destruct (_compute_mlflow_params_from_objects config) as [params|e] eqn:N.
    + now apply (S params).
    + destruct (contains (backend_names arg) "mlflow") eqn:M.
      * rewrite (@init_failure _ _ arg config env e A M N) in H.
        injection H as _ <-. cbn [effects].
        apply Forall_app. split; [apply warnings_no_log|].
        apply Forall_app. split; [|repeat constructor].
        destruct (wandb_requested (backend_names arg));
          [apply wandb_calls_no_log | constructor].
      * apply (S []). intros; congruence.
  - destruct (@init_rejected project_name experiment_name arg config env A)
      as [msg [st' [E [_ W]]]].
    rewrite E in H. injection H as _ <-.
    apply Forall_forall. intros e He. rewrite Forall_forall in W.
    now rewrite (W e He).
Qed.

End InitMore.

(** X9.  After a successful construction the registry holds exactly the
    supported backends that were requested, wandb being requested by its name
    or by the alias "tracking": one entry each, always in the order wandb,
    mlflow, console whatever the order and the repetitions in the request,
    each with the handle of its kind; and [console_logger] is the console
    backend's logger exactly when console was requested. *)
Theorem constructed_registry_is_canonical :
  forall (project_name experiment_name : string) (arg : Tracking.backend_arg)
         (config : option value) (env : dict string) (st : Tracking.state),
    Tracking.__init__ project_name experiment_name arg config
      (Tracking.fresh env) = (Ok tt, st) ->
    Tracking.logger st
    = Some (InitSpec.registry_for (TrackingSpec.backend_names arg))
    /\ Tracking.console_logger st
       = (if Tracking.contains (TrackingSpec.backend_names arg) "console"
          then Some (Tracking.LocalLogger true) else None)
    /\ forall b,
         In b (PyDict.keys
                 (InitSpec.registry_for (TrackingSpec.backend_names arg)))
         <-> In b Tracking.supported_backend
             /\ InitSpec.requested (TrackingSpec.backend_names arg) b = true.
Proof.
  intros project_name experiment_name arg config env st H.
  destruct (InitMore.constructed_state _ _ _ _ _ H) as [params [_ ->]].
  split; [reflexivity|]. split; [reflexivity|].
  intros b. unfold InitSpec.registry_for, PyDict.keys.
  rewrite map_map. cbn [fst]. rewrite map_id. apply filter_In.
Qed.

(** The facade built from a request that names console twice and wandb by
    both its name and the alias. *)
Definition alias_request : Tracking.backend_arg :=
  Tracking.Names ["console"; "tracking"; "wandb"; "console"].

Definition alias_facade : Tracking.state :=
  {| Tracking.environ := [("WANDB_API_KEY", "k3y")];
     Tracking.logger :=
       Some [("wandb", Tracking.Wandb);
             ("console", Tracking.LocalLogger true)];
     Tracking.console_logger := Some (Tracking.LocalLogger true);
     Tracking.effects :=
       [TrackingSpec.deprecation_warning;
        Tracking.WandbLogin "k3y" true;
        Tracking.WandbInit None "proj" "exp" None;
        Tracking.LocalLoggerNew true] |}.

Lemma alias_facade_constructed :
  Tracking.__init__ "proj" "exp" alias_request None
    (Tracking.fresh [("WANDB_API_KEY", "k3y")])
  = (Ok tt, alias_facade).
Proof. reflexivity. Qed.

Lemma constructed_registry_is_canonical_witness :
  Tracking.__init__ "proj" "exp" alias_request None
    (Tracking.fresh [("WANDB_API_KEY", "k3y")])
  = (Ok tt, alias_facade)
  /\ Tracking.logger alias_facade
     = Some (InitSpec.registry_for (TrackingSpec.backend_names alias_request))
  /\ InitSpec.registry_for (TrackingSpec.backend_names alias_request)
     = [("wandb", Tracking.Wandb); ("console", Tracking.LocalLogger true)].
Proof.
  split; [exact alias_facade_constructed|]. split; [|reflexivity].
  exact (proj1 (constructed_registry_is_canonical
                  "proj" "exp" alias_request None
                  [("WANDB_API_KEY", "k3y")] alias_facade_constructed)).
Defined.

(** X10.  The calls a successful construction makes, in order: one
    deprecation warning for every occurrence of the alias "tracking" in the
    request, before any backend is touched; for wandb a login with the API
    key, made only when WANDB_API_KEY is set and not empty, then the run
    initialization with the entity read from WANDB_ENTITY and the
    configuration as it was given; for mlflow the start of the run and then
    the logging of the normalized configuration; for console the creation of
    a logger that prints to the console.  Nothing else is called. *)
Theorem construction_calls :
  forall (project_name experiment_name : string) (arg : Tracking.backend_arg)
         (config : option value) (env : dict string) (st : Tracking.state),
    Tracking.__init__ project_name experiment_name arg config
      (Tracking.fresh env) = (Ok tt, st) ->
    exists params,
      (Tracking.contains (TrackingSpec.backend_names arg) "mlflow" = true ->
       normalize config = Ok params)
      /\ Tracking.effects st =
           TrackingSpec.warnings_of (TrackingSpec.backend_names arg)
           ++ InitSpec.init_calls env project_name experiment_name
                (TrackingSpec.backend_names arg) config params
      /\ List.length
           (TrackingSpec.warnings_of (TrackingSpec.backend_names arg))
         = count_occ string_dec (TrackingSpec.backend_names arg) "tracking".
Proof.
  intros project_name experiment_name arg config env st H.
  destruct (InitMore.constructed_state _ _ _ _ _ H) as [params [N ->]].
  exists params. split; [exact N|]. split; [reflexivity|].
  apply TrackingFacts.warnings_count.
Qed.

Lemma construction_calls_witness :
  Tracking.__init__ "proj" "exp" alias_request None
    (Tracking.fresh [("WANDB_API_KEY", "k3y")])
  = (Ok tt, alias_facade)
  /\ exists params,
       (Tracking.contains (TrackingSpec.backend_names alias_request) "mlflow"
        = true -> normalize None = Ok params)
       /\ Tracking.effects alias_facade =
            TrackingSpec.warnings_of (TrackingSpec.backend_names alias_request)
            ++ InitSpec.init_calls [("WANDB_API_KEY", "k3y")] "proj" "exp"
                 (TrackingSpec.backend_names alias_request) None params
       /\ List.length
            (TrackingSpec.warnings_of
               (TrackingSpec.backend_names alias_request))
          = count_occ string_dec (TrackingSpec.backend_names alias_request)
              "tracking".
Proof.
  split; [exact alias_facade_constructed|].
  exact (construction_calls "proj" "exp" alias_request None
           [("WANDB_API_KEY", "k3y")] alias_facade_constructed).
Defined.

(** X11.  When the normalizer raises on the configuration while mlflow is
    being initialized, the error leaves the constructor and nothing is rolled
    back: the mlflow run has been started but no parameter has been logged,
    a wandb backend requested alongside has already been initialized and
    stays in the registry, mlflow is not registered and the console backend
    is never reached. *)
Theorem mlflow_failure_leaves_partial_facade :
  forall (project_name experiment_name : string) (arg : Tracking.backend_arg)
         (config : option value) (env : dict string) (e : exn),
    forallb TrackingSpec.accepted (TrackingSpec.backend_names arg) = true ->
    Tracking.contains (TrackingSpec.backend_names arg) "mlflow" = true ->
    normalize config = Raise e ->
    exists st,
      Tracking.__init__ project_name experiment_name arg config
        (Tracking.fresh env) = (Raise e, st)
      /\ Tracking.logger st
         = Some (if InitSpec.wandb_requested (TrackingSpec.backend_names arg)
                 then [("wandb", Tracking.Wandb)] else [])
      /\ Tracking.console_logger st = None
      /\ Tracking.effects st =
           TrackingSpec.warnings_of (TrackingSpec.backend_names arg)
           ++ (if InitSpec.wandb_requested (TrackingSpec.backend_names arg)
               then InitSpec.wandb_calls env project_name experiment_name
                      config
               else [])
           ++ [Tracking.MlflowStartRun experiment_name].
Proof.
  intros project_name experiment_name arg config env e A M N.
  eexists. split; [exact (InitFacts.init_failure _ _ _ _ _ A M N)|].
  repeat split.
Qed.

Lemma mlflow_failure_leaves_partial_facade_witness :
  forallb TrackingSpec.accepted ["console"; "mlflow"; "wandb"] = true
  /\ Tracking.contains ["console"; "mlflow"; "wandb"] "mlflow" = true
  /\ normalize (Some (VDict [])) = Raise IndexError
  /\ exists st,
       Tracking.__init__ "proj" "exp"
         (Tracking.Names ["console"; "mlflow"; "wandb"]) (Some (VDict []))
         (Tracking.fresh []) = (Raise IndexError, st)
       /\ Tracking.logger st = Some [("wandb", Tracking.Wandb)]
       /\ Tracking.console_logger st = None
       /\ Tracking.effects st =
            [Tracking.WandbInit None "proj" "exp" (Some (VDict []));
             Tracking.MlflowStartRun "exp"].
Proof.
  assert (H1 : forallb TrackingSpec.accepted ["console"; "mlflow"; "wandb"]
               = true) by reflexivity.
  assert (H2 : Tracking.contains ["console"; "mlflow"; "wandb"] "mlflow"
               = true) by reflexivity.
  assert (H3 : normalize (Some (VDict [])) = Raise IndexError) by reflexivity.
  split; [exact H1|]. split; [exact H2|]. split; [exact H3|].
  exact (mlflow_failure_leaves_partial_facade "proj" "exp"
           (Tracking.Names ["console"; "mlflow"; "wandb"]) (Some (VDict []))
           [] H1 H2 H3).
Defined.

(** ** [log]: who is called, selectors, successive calls *)

Module LogMore.
Import Tracking TrackingSpec TrackingFacts LogFacts InitSpec.
Local Open Scope py_scope.

Lemma forwarded_canonical (l : list string) (data : dict value) (step : Z)
    (backend : option (list string)) :
  forwarded (map (fun b => (b, handle_of b)) l) data step backend =
    map (fun b => native_call (handle_of b) data step)
        (filter (admitted backend) l).
Proof.
  unfold forwarded. induction l as [|b l IH]; [reflexivity|].
  cbn [map filter fst]. destruct (admitted backend b); cbn [map snd];
    now rewrite IH.
Qed.

Lemma forwarded_are_log_calls (reg : dict handle) (data : dict value)
    (step : Z) (backend : option (list string)) :
  Forall (fun e => is_log_call e = true) (forwarded reg data step backend).
Proof.
  unfold forwarded. apply Forall_forall. intros e H.
  apply in_map_iff in H. destruct H as [[name h] [<- _]]. now destruct h.
Qed.

Lemma forwarded_ext (reg : dict handle) (data : dict value) (step : Z)
    (b1 b2 : option (list string)) :
  (forall name, In name (PyDict.keys reg) ->
     admitted b1 name = admitted b2 name) ->
  forwarded reg data step b1 = forwarded reg data step b2.
Proof.
  intros H. unfold forwarded. f_equal. apply filter_ext_in.
  intros [name h] Hin. apply H. apply in_map_iff. now exists (name, h).
Qed.

Lemma contains_same (s1 s2 : list string) (name : string) :
  (forall b, In b s1 <-> In b s2) -> contains s1 name = contains s2 name.
Proof.
  intros H. destruct (contains s2 name) eqn:E.
  - apply contains_In. apply H. now apply contains_In.
  - destruct (contains s1 name) eqn:E1; [|reflexivity].
    apply contains_In, H, contains_In in E1. congruence.
Qed.

End LogMore.

(** X12.  Construction and logging never do each other's work: however
    construction ends, none of the calls it has made logs metrics, and every
    call [log] makes is a native log call, so [log] never warns, logs in or
    initializes a run. *)
Theorem construction_and_log_are_separate :
  (forall (project_name experiment_name : string) (arg : Tracking.backend_arg)
          (config : option value) (env : dict string) (r : result unit)
          (st : Tracking.state),
     Tracking.__init__ project_name experiment_name arg config
       (Tracking.fresh env) = (r, st) ->
     Forall (fun e => InitSpec.is_log_call e = false) (Tracking.effects st))
  /\ (forall (st st' : Tracking.state) (data : dict value) (step : Z)
             (backend : option (list string)) (r : result unit),
        Tracking.log data step backend st = (r, st') ->
        exists calls,
          Tracking.effects st' = Tracking.effects st ++ calls
          /\ Forall (fun e => InitSpec.is_log_call e = true) calls).
Proof.
  split.
  - intros project_name experiment_name arg config env r st.
    apply InitMore.init_effects_no_log.
  - intros st st' data step backend r H.
    destruct (Tracking.logger st) as [reg|] eqn:L.
    + rewrite (LogFacts.log_effect _ _ _ _ L) in H. injection H as _ <-.
      exists (TrackingSpec.forwarded reg data step backend).
      split; [reflexivity | apply LogMore.forwarded_are_log_calls].
    + unfold Tracking.log, Tracking.bind, Tracking.get_logger in H.
      rewrite L in H. injection H as _ <-.
      exists []. split; [now rewrite app_nil_r | constructor].
Qed.

Lemma construction_and_log_are_separate_witness :
  Tracking.__init__ "proj" "exp" alias_request None
    (Tracking.fresh [("WANDB_API_KEY", "k3y")])
  = (Ok tt, alias_facade)
  /\ Forall (fun e => InitSpec.is_log_call e = false)
       (Tracking.effects alias_facade).
Proof.
  split; [exact alias_facade_constructed|].
  exact (proj1 construction_and_log_are_separate "proj" "exp" alias_request
           None [("WANDB_API_KEY", "k3y")] (Ok tt) alias_facade
           alias_facade_constructed).
Defined.

(** X13.  On a facade whose construction succeeded, [log] calls each
    backend at most once, in the order wandb, mlflow, console whatever the
    order of the names in the selector: the backends called are the
    requested ones that the selector admits.  The backend built for the alias
    "tracking" is registered as wandb and is reached by that name. *)
Theorem log_on_constructed_facade :
  forall (project_name experiment_name : string) (arg : Tracking.backend_arg)
         (config : option value) (env : dict string) (st : Tracking.state)
         (data : dict value) (step : Z) (backend : option (list string)),
    Tracking.__init__ project_name experiment_name arg config
      (Tracking.fresh env) = (Ok tt, st) ->
    Tracking.log data step backend st =
      (Ok tt,
       Tracking.add_effects st
         (map (fun b => TrackingSpec.native_call (InitSpec.handle_of b)
                          data step)
              (filter (TrackingSpec.admitted backend)
                 (filter (InitSpec.requested (TrackingSpec.backend_names arg))
                    Tracking.supported_backend)))).
Proof.
  intros project_name experiment_name arg config env st data step backend H.
  apply InitFacts.constructed_registry in H.
  rewrite (LogFacts.log_effect _ _ _ _ H).
  unfold InitSpec.registry_for. now rewrite LogMore.forwarded_canonical.
Qed.

Lemma log_on_constructed_facade_witness :
  Tracking.__init__ "proj" "exp" alias_request None
    (Tracking.fresh [("WANDB_API_KEY", "k3y")])
  = (Ok tt, alias_facade)
  /\ Tracking.log [("loss", VInt 2)] 5 (Some ["console"; "wandb"]) alias_facade
     = (Ok tt,
        Tracking.add_effects alias_facade
          [Tracking.WandbLog [("loss", VInt 2)] 5;
           Tracking.LocalLoggerLog [("loss", VInt 2)] 5])
  /\ Tracking.log [("loss", VInt 2)] 5 (Some ["tracking"]) alias_facade
     = (Ok tt, Tracking.add_effects alias_facade []).
Proof.
  split; [exact alias_facade_constructed|]. split.
  - exact (log_on_constructed_facade "proj" "exp" alias_request None
             [("WANDB_API_KEY", "k3y")] [("loss", VInt 2)] 5
             (Some ["console"; "wandb"]) alias_facade_constructed).
  - exact (log_on_constructed_facade "proj" "exp" alias_request None
             [("WANDB_API_KEY", "k3y")] [("loss", VInt 2)] 5
             (Some ["tracking"]) alias_facade_constructed).
Defined.

(** X14.  A selector counts only through the names it contains: two
    selectors with the same names, in any order and with any repetitions,
    make [log] do the same, and no selector does the same as the selector
    that lists every key of the registry. *)
Theorem log_selector_is_a_set :
  forall (st : Tracking.state) (reg : dict Tracking.handle)
         (data : dict value) (step : Z),
    Tracking.logger st = Some reg ->
    (forall s1 s2 : list string,
       (forall b, In b s1 <-> In b s2) ->
       Tracking.log data step (Some s1) st
       = Tracking.log data step (Some s2) st)
    /\ Tracking.log data step None st
       = Tracking.log data step (Some (PyDict.keys reg)) st.
Proof.
  intros st reg data step L. split.
  - intros s1 s2 H. rewrite !(LogFacts.log_effect _ _ _ _ L). do 2 f_equal.
    apply LogMore.forwarded_ext. intros name _. cbn [TrackingSpec.admitted].
    now apply LogMore.contains_same.
  - rewrite !(LogFacts.log_effect _ _ _ _ L). do 2 f_equal.
    apply LogMore.forwarded_ext. intros name Hin. cbn [TrackingSpec.admitted].
    symmetry. now apply TrackingFacts.contains_In.
Qed.

Lemma log_selector_is_a_set_witness :
  Tracking.logger two_backend_facade
  = Some [("wandb", Tracking.Wandb); ("console", Tracking.LocalLogger true)]
  /\ Tracking.log [("loss", VInt 2)] 5 None two_backend_facade
     = Tracking.log [("loss", VInt 2)] 5 (Some ["wandb"; "console"])
         two_backend_facade.
Proof.
  assert (H : Tracking.logger two_backend_facade
              = Some [("wandb", Tracking.Wandb);
                      ("console", Tracking.LocalLogger true)]) by reflexivity.
  split; [exact H|].
  exact (proj2 (log_selector_is_a_set two_backend_facade
                  [("loss", VInt 2)] 5 H)).
Defined.

(** X15.  A selector that names none of the registered backends, the empty
    selector among them, makes [log] a silent no-op: it succeeds, calls
    nobody and leaves the facade as it was. *)
Theorem log_with_foreign_selector_is_noop :
  forall (st : Tracking.state) (reg : dict Tracking.handle)
         (data : dict value) (step : Z) (names : list string),
    Tracking.logger st = Some reg ->
    (forall name, In name (PyDict.keys reg) -> ~ In name names) ->
    Tracking.log data step (Some names) st = (Ok tt, st).
Proof.
  intros st reg data step names L H.
  rewrite (LogFacts.log_effect _ _ _ _ L).
  assert (E : TrackingSpec.forwarded reg data step (Some names) = []).
  { unfold TrackingSpec.forwarded.
    replace (filter _ reg) with (@nil (string * Tracking.handle));
      [reflexivity|].
    symmetry. apply filter_none. apply forallb_forall.
    intros [name h] Hin. cbn [fst TrackingSpec.admitted].
    apply negb_true_iff.
    destruct (Tracking.contains names name) eqn:C; [|reflexivity].
    apply TrackingFacts.contains_In in C. exfalso.
    apply (H name); [|exact C]. apply in_map_iff. now exists (name, h). }
  rewrite E. now rewrite TrackingFacts.add_effects_nil.
Qed.

Lemma log_with_foreign_selector_is_noop_witness :
  Tracking.logger two_backend_facade
  = Some [("wandb", Tracking.Wandb); ("console", Tracking.LocalLogger true)]
  /\ (forall name,
        In name (PyDict.keys [("wandb", Tracking.Wandb);
                              ("console", Tracking.LocalLogger true)]) ->
        ~ In name ["mlflow"; "tracking"])
  /\ Tracking.log [("loss", VInt 2)] 5 (Some ["mlflow"; "tracking"])
       two_backend_facade
     = (Ok tt, two_backend_facade).
Proof.
  assert (H1 : Tracking.logger two_backend_facade
               = Some [("wandb", Tracking.Wandb);
                       ("console", Tracking.LocalLogger true)])
    by reflexivity.
  assert (H2 : forall name,
             In name (PyDict.keys [("wandb", Tracking.Wandb);
                                   ("console", Tracking.LocalLogger true)]) ->
             ~ In name ["mlflow"; "tracking"]).
  { intros name [<-|[<-|[]]]; simpl; intuition discriminate. }
  split; [exact H1|]. split; [exact H2|].
  exact (log_with_foreign_selector_is_noop two_backend_facade
           [("loss", VInt 2)] 5 ["mlflow"; "tracking"] H1 H2).
Defined.

(** X16.  [log] leaves the registry as it is, so successive calls reach the
    same backends: two calls in a row succeed and the calls they make are
    those of the first followed by those of the second, each computed from
    the same registry. *)
Theorem successive_logs :
  forall (st : Tracking.state) (reg : dict Tracking.handle)
         (data1 data2 : dict value) (step1 step2 : Z)
         (backend1 backend2 : option (list string)),
    Tracking.logger st = Some reg ->
    Tracking.bind (Tracking.log data1 step1 backend1)
      (fun _ => Tracking.log data2 step2 backend2) st
    = (Ok tt,
       Tracking.add_effects st
         (TrackingSpec.forwarded reg data1 step1 backend1
          ++ TrackingSpec.forwarded reg data2 step2 backend2)).
Proof.
  intros st reg data1 data2 step1 step2 backend1 backend2 L.
  unfold Tracking.bind at 1. rewrite (LogFacts.log_effect _ _ _ _ L).
  assert (L' : Tracking.logger
                 (Tracking.add_effects st
                    (TrackingSpec.forwarded reg data1 step1 backend1))
               = Some reg) by exact L.
  rewrite (LogFacts.log_effect _ _ _ _ L').
  now rewrite TrackingFacts.add_effects_app.
Qed.

Lemma successive_logs_witness :
  Tracking.logger two_backend_facade
  = Some [("wandb", Tracking.Wandb); ("console", Tracking.LocalLogger true)]
  /\ Tracking.bind (Tracking.log [("loss", VInt 2)] 5 None)
       (fun _ => Tracking.log [("loss", VInt 1)] 6 (Some ["console"]))
       two_backend_facade
     = (Ok tt,
        Tracking.add_effects two_backend_facade
          [Tracking.WandbLog [("loss", VInt 2)] 5;
           Tracking.LocalLoggerLog [("loss", VInt 2)] 5;
           Tracking.LocalLoggerLog [("loss", VInt 1)] 6]).
Proof.
  assert (H : Tracking.logger two_backend_facade
              = Some [("wandb", Tracking.Wandb);
                      ("console", Tracking.LocalLogger true)]) by reflexivity.
  split; [exact H|].
  exact (successive_logs two_backend_facade [("loss", VInt 2)]
           [("loss", VInt 1)] 5 6 None (Some ["console"]) H).
Defined.
